(** * Dudley-method spline durability: a shallow embedding of
      [SplineDurabilityDudleyMethod.py] and the properties of its
      calculation pipeline.

    Numbers are IEEE binary64 values (Python's [float]), modelled by the
    primitive floats of Rocq, so every literal, comparison and arithmetic
    operation below is the one the interpreter performs.  The attributes
    that [calculate] assigns on [self] live in a finite map from attribute
    names to values, as in the instance dictionary of the Python object. *)

From Stdlib Require Import ZArith Floats Lia String List.
From stdpp Require Import base option list gmap strings.
Import ListNotations.

Set Warnings "-inexact-float".
Local Open Scope float_scope.

(* ===================================================================== *)
(** ** Python values, exceptions and arithmetic *)
(* ===================================================================== *)

(** The exceptions the calculation can raise: the two declared by the
    module, and the interpreter's own. *)
Inductive exn : Type :=
  | UnrecognisedHardnessTypeException
  | UnrecognisedToothEndException
  | TypeError
  | ZeroDivisionError
  | OverflowError
  | IndexError
  | AttributeError.

(** The outcome of evaluating an expression or calling a method. *)
Inductive result (A : Type) : Type :=
  | Return (a : A)
  | Raise (e : exn).
Arguments Return {A} a.
Arguments Raise {A} e.

(** The values that flow between the methods: a Python [float], a
    [numpy.float64] (what [np.tan] returns, and what arithmetic with one
    yields), and [None] (what a method returns when it falls off its
    last branch). *)
Inductive value : Type :=
  | VFloat (x : float)
  | VNp (x : float)
  | VNone.

Definition fl (x : float) : result value := Return (VFloat x).
Definition ret (v : value) : result value := Return v.
Arguments fl x%_float.

(** [+], [-], [*]: [None] is a [TypeError]; a numpy operand makes the
    result a numpy scalar. *)
Definition arith (op : float -> float -> float) (a b : value) : result value :=
  match a, b with
  | VNone, _ | _, VNone => Raise TypeError
  | VFloat x, VFloat y => Return (VFloat (op x y))
  | VFloat x, VNp y | VNp x, VFloat y | VNp x, VNp y => Return (VNp (op x y))
  end.

(** [/]: between two Python floats a zero divisor raises
    [ZeroDivisionError]; numpy division returns inf or nan instead. *)
Definition truediv (a b : value) : result value :=
  match a, b with
  | VNone, _ | _, VNone => Raise TypeError
  | VFloat x, VFloat y =>
      if y =? 0 then Raise ZeroDivisionError else Return (VFloat (x / y))
  | VFloat x, VNp y | VNp x, VFloat y | VNp x, VNp y => Return (VNp (x / y))
  end.

(** A binary operator evaluates its left operand, then its right one,
    then applies the operation; the first exception wins. *)
Definition binop (f : value -> value -> result value)
    (a b : result value) : result value :=
  match a with
  | Raise e => Raise e
  | Return x =>
      match b with
      | Raise e => Raise e
      | Return y => f x y
      end
  end.

Definition py_add := binop (arith PrimFloat.add).
Definition py_sub := binop (arith PrimFloat.sub).
Definition py_mul := binop (arith PrimFloat.mul).
Definition py_div := binop truediv.

Declare Scope py_scope.
Delimit Scope py_scope with py.
Infix "+" := py_add : py_scope.
Infix "-" := py_sub : py_scope.
Infix "*" := py_mul : py_scope.
Infix "/" := py_div : py_scope.

(** [l[i]] on a Python list: a negative index counts from the end, an
    index out of range raises [IndexError]. *)
Definition getitem {A : Type} (l : list A) (i : Z) : result A :=
  let len := Z.of_nat (length l) in
  let j := if (i <? 0)%Z then (i + len)%Z else i in
  if (j <? 0)%Z then Raise IndexError
  else match l !! Z.to_nat j with
       | Some x => Return x
       | None => Raise IndexError
       end.

(** [np.pi], a Python float. *)
Definition np_pi : float := 3.141592653589793.

Definition bind {A B : Type} (m : result A) (k : A -> result B) : result B :=
  match m with
  | Return a => k a
  | Raise e => Raise e
  end.

Notation "'let*' x ':=' m 'in' k" := (bind m (fun x => k))
  (at level 10, x name, m at level 100, k at level 200).

(** [for i in bounds: if x < i: break else: m += 1], the counting loop
    of the load-distribution lookup, started with counter [m]. *)
Fixpoint bracket (x : float) (bounds : list float) (m : Z) : Z :=
  match bounds with
  | [] => m
  | i :: rest => if x <? i then m else bracket x rest (m + 1)
  end.

(* ===================================================================== *)
(** ** The methods of [DudleyMethodSpline] *)
(* ===================================================================== *)

Section Methods.

(** The unit-conversion collaborators ([PressureConverter.psiToPa],
    [LengthConverter.mToInch]) and the C library functions behind
    [**] and [np.tan] are outside the module; the methods are
    parametric in them.  [float_pow] may raise, as Python's [**] does
    on overflow. *)
Variable psiToPa : float -> float.
Variable mToInch : float -> float.
Variable float_pow : float -> float -> result float.
Variable np_tan : float -> float.

Definition pow (x y : float) : result value :=
  let* r := float_pow x y in Return (VFloat r).
Arguments pow (x y)%_float.

(** A converter applied to an evaluated argument (in this module always
    a Python float); it is taken to scale its argument, so it keeps a
    numpy scalar one and rejects [None]. *)
Definition convert (f : float -> float) (a : result value) : result value :=
  let* v := a in
  match v with
  | VFloat x => Return (VFloat (f x))
  | VNp x => Return (VNp (f x))
  | VNone => Raise TypeError
  end.

Definition solidShaftStress (t dRE : float) : result value :=
  (fl 16 * fl t / (fl np_pi * pow dRE 3))%py.

Definition hollowShaftStress (t dRE dH : float) : result value :=
  (fl 16 * fl t * fl dRE / (fl np_pi * (pow dRE 4 - pow dH 4)))%py.

Definition kTable : list (list float) :=
  [[1; 1.2; 1.5; 1.8]; [1.2; 1.3; 1.8; 2.1]; [2; 2.2; 2.4; 2.8]].

Definition getSplineApplicationFactor (supplyShockType loadShockType : Z)
    : result value :=
  let* row := getitem kTable supplyShockType in
  let* k := getitem row loadShockType in
  Return (VFloat k).

Definition getLifeFactor (nCyc : float) (reversible : bool) : float :=
  if nCyc <? 1000 then (if reversible then 1.8 else 1.8)
  else if nCyc <? 10000 then (if reversible then 1.0 else 1.0)
  else if nCyc <? 100000 then (if reversible then 0.4 else 0.5)
  else if nCyc <? 1000000 then (if reversible then 0.3 else 0.4)
  else (if reversible then 0.2 else 0.3).

Definition maximumShaftStress (sS kA lF : value) : result value :=
  (ret sS * ret kA / ret lF)%py.

Definition getAllowableShearStressByHardness (hardness : float)
    (hType : string) : result value :=
  if String.eqb hType "Brinell" then
    if hardness <? 200 then fl (psiToPa 20000)
    else if hardness <? 260 then fl (psiToPa 30000)
    else if hardness <? 351 then fl (psiToPa 40000)
    else Return VNone
  else if String.eqb hType "Rockwell C" then
    if hardness <? 38 then fl (psiToPa 40000)
    else if hardness <? 46 then fl (psiToPa 45000)
    else if hardness <? 53 then fl (psiToPa 40000)
    else if hardness <? 63 then fl (psiToPa 50000)
    else Return VNone
  else Raise UnrecognisedHardnessTypeException.

Definition getShaftSafetyFactor (maxShaftStress allowableShaftStress : value)
    : result value :=
  (ret allowableShaftStress / ret maxShaftStress)%py.

Definition getTeethShearStress (t : float) (kM : value) (d z fE tC : float)
    : result value :=
  ((fl 4 * fl t * ret kM) / (fl d * fl z * fl fE * fl tC))%py.

Definition lookUp : list (list float) :=
  [[1; 1; 1; 1.5]; [1; 1; 1.5; 2]; [1; 1.5; 2; 2.5]; [1.5; 2; 2.5; 3]].

Definition misalignmentBounds : list float := [0.001; 0.002; 0.004; 0.008].
Definition faceWidthBounds : list float := [12.7e-3; 25.4e-3; 50.8e-3; 101e-3].

Definition clamp3 (m : Z) : Z := if (m >? 3)%Z then 3%Z else m.

Definition getLoadDistributionFactorSpline (relativeMisalignment fE : float)
    : result value :=
  let m := bracket relativeMisalignment misalignmentBounds 0 in
  let m := clamp3 m in
  let n := bracket fE faceWidthBounds 0 in
  let n := clamp3 n in
  let* row := getitem lookUp m in
  let* k := getitem row n in
  Return (VFloat k).

Definition getCompressiveStress (t : float) (kM : value) (d z fE h : float)
    : result value :=
  ((fl 2 * fl t * ret kM) / (fl d * fl z * fl fE * fl h))%py.

Definition getAllowableCompressiveStressForSplines (hardness : float)
    (hType toothEnd : string) : result value :=
  if negb (String.eqb toothEnd "Straight" || String.eqb toothEnd "Crowned")
  then Raise UnrecognisedToothEndException
  else if String.eqb hType "Brinell" then
    if hardness <? 200 then
      if String.eqb toothEnd "Straight" then fl (psiToPa 1500)
      else fl (psiToPa 6000)
    else if hardness <? 260 then
      if String.eqb toothEnd "Straight" then fl (psiToPa 2000)
      else fl (psiToPa 8000)
    else if hardness <? 351 then
      if String.eqb toothEnd "Straight" then fl (psiToPa 3000)
      else fl (psiToPa 12000)
    else Return VNone
  else if String.eqb hType "Rockwell C" then
    if hardness <? 38 then
      if String.eqb toothEnd "Straight" then fl (psiToPa 3000)
      else fl (psiToPa 12000)
    else if hardness <? 53 then
      if String.eqb toothEnd "Straight" then fl (psiToPa 4000)
      else fl (psiToPa 16000)
    else if hardness <? 63 then
      if String.eqb toothEnd "Straight" then fl (psiToPa 5000)
      else fl (psiToPa 20000)
    else Return VNone
  else Raise UnrecognisedHardnessTypeException.

Definition getSplineWearLifeFactor (nCyc : float) : value :=
  if nCyc <? 1e4 then VFloat 4.0
  else if nCyc <? 1e5 then VFloat 2.8
  else if nCyc <? 1e6 then VFloat 2
  else if nCyc <? 1e7 then VFloat 1.4
  else if nCyc <? 1e8 then VFloat 1
  else if nCyc <? 1e9 then VFloat 0.7
  else if nCyc <? 1e10 then VFloat 0.5
  else VNone.

Definition getAllowableCompressiveStress (sC kA lW : value) (flexible : bool)
    : result value :=
  if flexible then (ret sC * ret kA / ret lW)%py
  else (ret sC * ret kA / (fl 9 * ret lW))%py.

Definition getBurstingRadialStress (t phi d tW f : float) : result value :=
  (fl t * ret (VNp (np_tan phi)) / (fl np_pi * fl d * fl tW * fl f))%py.

Definition getBurstingCentrifugalStress (n dOi dRi : float) : result value :=
  convert psiToPa
    (fl 0.828 * fl 1.0e-6 * pow n 2 *
     (fl 2 * pow (mToInch dOi) 2 + (fl 0.424 * pow (mToInch dRi) 2)))%py.

Definition getBurstingTensileStress (t d fE y : float) : result value :=
  ((fl 4 * fl t) / (pow d 2 * fl fE * fl y))%py.

Definition getTotalBurstingStress (kA kM s1 s2 s3 : value) : result value :=
  ((ret kA * ret kM * (ret s1 + ret s3)) + ret s2)%py.

Definition getAllowableBurstingStressByHardness (hardness : float)
    (hType : string) : result value :=
  if String.eqb hType "Brinell" then
    if hardness <? 200 then fl (psiToPa 22000)
    else if hardness <? 260 then fl (psiToPa 32000)
    else if hardness <? 351 then fl (psiToPa 45000)
    else Return VNone
  else if String.eqb hType "Rockwell C" then
    if hardness <? 46 then fl (psiToPa 45000)
    else if hardness <? 53 then fl (psiToPa 50000)
    else if hardness <? 63 then fl (psiToPa 55000)
    else Return VNone
  else Raise UnrecognisedHardnessTypeException.

Definition getBurstingSafetyFactor (sTTot sTTotMax lF : value) : result value :=
  (ret sTTotMax / (ret sTTot / ret lF))%py.

End Methods.

(* ===================================================================== *)
(** ** The object and its calculation pipeline *)
(* ===================================================================== *)

(** The attributes [__init__] stores: the constructor's arguments.
    [calculate] reads them and never assigns them.  The two shock types
    index a list and are integers; the hardness type and the tooth end
    are strings; every other numeric argument is a binary64 value, as the
    entry form passes it (where the docstring says [int], for [n],
    [nCyc], [nTotal] and [z], the code only compares the argument with
    literals or multiplies it into a float, which an integer-valued float
    does alike). *)
Record Inputs : Type := {
  _t : float;
  _dRe : float;
  _supplyShockType : Z;
  _loadShockType : Z;
  _n : float;
  _nCyc : float;
  _nTotal : float;
  _hardness : float;
  _d : float;
  _z : float;
  _fE : float;
  _tC : float;
  _relativeMisalignment : float;
  _h : float;
  _phi : float;
  _tW : float;
  _f : float;
  _dOi : float;
  _dRi : float;
  _dH : float;
  _hType : string;
  _reversible : bool;
  _toothEnd : string;
  _flexible : bool;
  _y : float
}.

(** The attributes [calculate] assigns, by name; a name that was never
    assigned is absent, and reading it is an [AttributeError]. *)
Abbreviation attrs := (gmap string value).

Record DudleyMethodSpline : Type := {
  stored : Inputs;
  computed : attrs
}.

Definition attr (d : attrs) (name : string) : result value :=
  match d !! name with
  | Some v => Return v
  | None => Raise AttributeError
  end.

(** A statement runs on the attribute dictionary; what it assigned before
    raising stays assigned. *)
Definition stmt : Type := attrs -> attrs * result unit.

(** [self.<name> = <rhs>] *)
Definition assign (name : string) (rhs : attrs -> result value) : stmt :=
  fun d =>
    match rhs d with
    | Return v => (<[name := v]> d, Return tt)
    | Raise e => (d, Raise e)
    end.

Definition seq (s1 s2 : stmt) : stmt :=
  fun d =>
    match s1 d with
    | (d', Return _) => s2 d'
    | (d', Raise e) => (d', Raise e)
    end.

Declare Scope stmt_scope.
Delimit Scope stmt_scope with stmt.
Bind Scope stmt_scope with stmt.
Notation "s1 ;; s2" := (seq s1 s2)
  (at level 100, s2 at level 200, right associativity) : stmt_scope.

Section Pipeline.

Variable psiToPa : float -> float.
Variable mToInch : float -> float.
Variable float_pow : float -> float -> result float.
Variable np_tan : float -> float.

Definition calculate_body (i : Inputs) : stmt :=
 (assign "_shaftStress" (fun _ =>
    if _dH i =? 0 then solidShaftStress float_pow (_t i) (_dRe i)
    else hollowShaftStress float_pow (_t i) (_dRe i) (_dH i)) ;;
  assign "_appFactor" (fun _ =>
    getSplineApplicationFactor (_supplyShockType i) (_loadShockType i)) ;;
  assign "_splineLF" (fun _ =>
    fl (getLifeFactor (_nCyc i) (_reversible i))) ;;
  assign "_allowShaftStress" (fun _ =>
    getAllowableShearStressByHardness psiToPa (_hardness i) (_hType i)) ;;
  assign "_maxShaftStress" (fun d =>
    let* sS := attr d "_shaftStress" in
    let* kA := attr d "_appFactor" in
    let* lF := attr d "_splineLF" in
    maximumShaftStress sS kA lF) ;;
  assign "_shaftSafetyFactor" (fun d =>
    let* mx := attr d "_maxShaftStress" in
    let* al := attr d "_allowShaftStress" in
    getShaftSafetyFactor mx al) ;;
  assign "_teethLoadkM" (fun _ =>
    getLoadDistributionFactorSpline (_relativeMisalignment i) (_fE i)) ;;
  assign "_teethShearStress" (fun d =>
    let* kM := attr d "_teethLoadkM" in
    getTeethShearStress (_t i) kM (_d i) (_z i) (_fE i) (_tC i)) ;;
  assign "_maxTeethShearStress" (fun d =>
    let* sS := attr d "_teethShearStress" in
    let* kA := attr d "_appFactor" in
    let* lF := attr d "_splineLF" in
    maximumShaftStress sS kA lF) ;;
  assign "_teethSafetyFactor" (fun d =>
    let* mx := attr d "_maxTeethShearStress" in
    let* al := attr d "_allowShaftStress" in
    getShaftSafetyFactor mx al) ;;
  assign "_compStress" (fun d =>
    let* kM := attr d "_teethLoadkM" in
    getCompressiveStress (_t i) kM (_d i) (_z i) (_fE i) (_h i)) ;;
  assign "_allowCompStress" (fun _ =>
    getAllowableCompressiveStressForSplines psiToPa
      (_hardness i) (_hType i) (_toothEnd i)) ;;
  (if _flexible i then
     assign "_lifeWear" (fun _ =>
       ret (getSplineWearLifeFactor (_nTotal i))) ;;
     assign "_factoredCompStress" (fun d =>
       let* sC := attr d "_compStress" in
       let* kA := attr d "_appFactor" in
       let* lW := attr d "_lifeWear" in
       getAllowableCompressiveStress sC kA lW true)
   else
     assign "_factoredCompStress" (fun d =>
       let* sC := attr d "_compStress" in
       let* kA := attr d "_appFactor" in
       let* lF := attr d "_splineLF" in
       getAllowableCompressiveStress sC kA lF false)) ;;
  assign "_compSafetyFactor" (fun d =>
    let* al := attr d "_allowCompStress" in
    let* fc := attr d "_factoredCompStress" in
    (ret al / ret fc)%py) ;;
  assign "_burstRad" (fun _ =>
    getBurstingRadialStress np_tan (_t i) (_phi i) (_d i) (_tW i) (_f i)) ;;
  assign "_burstCentrifugal" (fun _ =>
    getBurstingCentrifugalStress psiToPa mToInch float_pow
      (_n i) (_dOi i) (_dRi i)) ;;
  assign "_burstTens" (fun _ =>
    getBurstingTensileStress float_pow (_t i) (_d i) (_fE i) (_y i)) ;;
  assign "_burstTotal" (fun d =>
    let* kA := attr d "_appFactor" in
    let* kM := attr d "_teethLoadkM" in
    let* s1 := attr d "_burstRad" in
    let* s2 := attr d "_burstCentrifugal" in
    let* s3 := attr d "_burstTens" in
    getTotalBurstingStress kA kM s1 s2 s3) ;;
  assign "_allowBurstStress" (fun _ =>
    getAllowableBurstingStressByHardness psiToPa (_hardness i) (_hType i)) ;;
  assign "_burstSafetyFactor" (fun d =>
    let* st := attr d "_burstTotal" in
    let* al := attr d "_allowBurstStress" in
    let* lF := attr d "_splineLF" in
    getBurstingSafetyFactor st al lF))%stmt.

(** [self.calculate()]: the object afterwards, and whether the call
    returned or raised. *)
Definition calculate (self : DudleyMethodSpline)
    : DudleyMethodSpline * result unit :=
  let (d, r) := calculate_body (stored self) (computed self) in
  ({| stored := stored self; computed := d |}, r).

(** [__init__]: store the arguments, then calculate when [autoCalc]. *)
Definition __init__
    (t dRe : float) (supplyShockType loadShockType : Z)
    (n nCyc nTotal hardness d z fE tC relativeMisalignment h phi tW f
       dOi dRi : float)
    (autoCalc : bool) (dH : float) (hType : string) (reversible : bool)
    (toothEnd : string) (flexible : bool) (y : float)
    : DudleyMethodSpline * result unit :=
  let self :=
    {| stored :=
         {| _t := t; _dRe := dRe; _supplyShockType := supplyShockType;
            _loadShockType := loadShockType; _n := n; _nCyc := nCyc;
            _nTotal := nTotal; _hardness := hardness; _d := d; _z := z;
            _fE := fE; _tC := tC;
            _relativeMisalignment := relativeMisalignment; _h := h;
            _phi := phi; _tW := tW; _f := f; _dOi := dOi; _dRi := dRi;
            _dH := dH; _hType := hType; _reversible := reversible;
            _toothEnd := toothEnd; _flexible := flexible; _y := y |};
       computed := ∅ |} in
  if autoCalc then calculate self else (self, Return tt).

(** The class call [DudleyMethodSpline(...)]: the caller gets the
    object only when [__init__] returns. *)
Definition construct (i : Inputs) (autoCalc : bool)
    : result DudleyMethodSpline :=
  match __init__ (_t i) (_dRe i) (_supplyShockType i) (_loadShockType i)
          (_n i) (_nCyc i) (_nTotal i) (_hardness i) (_d i) (_z i) (_fE i)
          (_tC i) (_relativeMisalignment i) (_h i) (_phi i) (_tW i) (_f i)
          (_dOi i) (_dRi i) autoCalc (_dH i) (_hType i) (_reversible i)
          (_toothEnd i) (_flexible i) (_y i) with
  | (self, Return _) => Return self
  | (_, Raise e) => Raise e
  end.

End Pipeline.

(* ===================================================================== *)
(** ** Sample collaborators, to run the methods on concrete inputs *)
(* ===================================================================== *)

Module Sample.

(** Modelled from the spec: the unit-conversion collaborator
    [psiToPascals], absent from the sources, with the factor the
    interface section gives (1 psi = 6894.757293168 Pa). *)
Definition psiToPa (psi : float) : float := psi * 6894.757293168.

(** Modelled from the spec: the unit-conversion collaborator
    [metersToInches], absent from the sources (1 in = 0.0254 m). *)
Definition mToInch (m : float) : float := m / 0.0254.

(** [x ** y] for the three exponents the module uses, by repeated
    multiplication; the theorems never depend on this choice. *)
Definition float_pow (x y : float) : result float :=
  if y =? 2 then Return (x * x)
  else if y =? 3 then Return (x * x * x)
  else if y =? 4 then Return (x * x * x * x)
  else Raise OverflowError.

(** A placeholder tangent (its small-angle value); the theorems never
    depend on this choice. *)
Definition np_tan (x : float) : float := x.

End Sample.

(* ===================================================================== *)
(** ** Definitions used to state the properties *)
(* ===================================================================== *)

(** The step function of the specification: an ordered list of
    (upper bound, value) pairs, searched for the first bound strictly
    above the argument; [default] when no bound is. *)
Fixpoint spec_step_function {A : Type} (table : list (float * A)) (default : A)
    (x : float) : A :=
  match table with
  | [] => default
  | (bound, a) :: rest =>
      if x <? bound then a else spec_step_function rest default x
  end.

(** Life factor as the specification tabulates it: breakpoints with the
    pairs (unidirectional, fully-reversed). *)
Definition spec_lifeFactorTable : list (float * (float * float)) :=
  [(1000, (1.8, 1.8)); (10000, (1.0, 1.0));
   (100000, (0.5, 0.4)); (1000000, (0.4, 0.3))].

Definition spec_getLifeFactor (nCyc : float) (reversible : bool) : float :=
  let p := spec_step_function spec_lifeFactorTable (0.3, 0.2) nCyc in
  if reversible then snd p else fst p.

(** Spline wear life factor as the specification tabulates it. *)
Definition spec_wearTable : list (float * value) :=
  [(1e4, VFloat 4.0); (1e5, VFloat 2.8); (1e6, VFloat 2.0); (1e7, VFloat 1.4);
   (1e8, VFloat 1.0); (1e9, VFloat 0.7); (1e10, VFloat 0.5)].

(** A hardness table read as a cascade of upper bounds: the stress (in
    psi, converted) of the first bracket whose upper bound is above the
    hardness, and [None] at or above the last upper bound. *)
Definition spec_hardness_lookup (psiToPa : float -> float)
    (table : list (float * float)) (hardness : float) : result value :=
  spec_step_function
    (map (fun row => (fst row, fl (psiToPa (snd row)))) table)
    (Return VNone) hardness.

(** Bucket index of the specification: the position of the first
    breakpoint strictly above the value, and 3 at or above the top one. *)
Definition spec_bucket (bounds : list float) (x : float) : nat :=
  spec_step_function (zip bounds [0; 1; 2; 3]%nat) 3%nat x.

(** The PSI-domain centrifugal formula of the specification, on the
    squares of the speed and of the two diameters in inches. *)
Definition spec_centrifugal_psi (n2 dOi_in2 dRi_in2 : float) : float :=
  0.828e-6 * n2 * (2 * dOi_in2 + 0.424 * dRi_in2).

(** A newly allocated object holding the constructor's arguments, before
    anything was calculated. *)
Definition fresh (i : Inputs) : DudleyMethodSpline :=
  {| stored := i; computed := ∅ |}.

(** What [self.<name>] holds after a call: the value assigned, or the
    exception that ended the call before the assignment. *)
Definition observe (name : string) (run : DudleyMethodSpline * result unit)
    : result value :=
  match computed (fst run) !! name with
  | Some v => Return v
  | None =>
      match snd run with
      | Raise e => Raise e
      | Return _ => Raise AttributeError
      end
  end.

(** Assignments listed latest first, and the dictionary they produce. *)
Fixpoint assoc (l : list (string * value)) (k : string) : option value :=
  match l with
  | [] => None
  | (k', v) :: l' => if String.eqb k' k then Some v else assoc l' k
  end.

Fixpoint inserts (l : list (string * value)) (d : attrs) : attrs :=
  match l with
  | [] => d
  | (k, v) :: l' => <[k := v]> (inserts l' d)
  end.

(** A flexible, solid-shaft coupling in case-hardened steel. *)
Definition sample_inputs : Inputs :=
  {| _t := 100; _dRe := 0.03; _supplyShockType := 2; _loadShockType := 0;
     _n := 3000; _nCyc := 9999; _nTotal := 9999999999; _hardness := 60;
     _d := 0.035; _z := 20; _fE := 0.03; _tC := 0.002;
     _relativeMisalignment := 0.001; _h := 0.002; _phi := 0.5; _tW := 0.01;
     _f := 0.03; _dOi := 0.06; _dRi := 0.04; _dH := 0;
     _hType := "Rockwell C"; _reversible := false; _toothEnd := "Straight";
     _flexible := true; _y := 1.5 |}.

Definition with_hType (i : Inputs) (hType : string) : Inputs :=
  {| _t := _t i; _dRe := _dRe i; _supplyShockType := _supplyShockType i;
     _loadShockType := _loadShockType i; _n := _n i; _nCyc := _nCyc i;
     _nTotal := _nTotal i; _hardness := _hardness i; _d := _d i; _z := _z i;
     _fE := _fE i; _tC := _tC i;
     _relativeMisalignment := _relativeMisalignment i; _h := _h i;
     _phi := _phi i; _tW := _tW i; _f := _f i; _dOi := _dOi i;
     _dRi := _dRi i; _dH := _dH i; _hType := hType;
     _reversible := _reversible i; _toothEnd := _toothEnd i;
     _flexible := _flexible i; _y := _y i |}.

Definition with_nTotal (i : Inputs) (nTotal : float) : Inputs :=
  {| _t := _t i; _dRe := _dRe i; _supplyShockType := _supplyShockType i;
     _loadShockType := _loadShockType i; _n := _n i; _nCyc := _nCyc i;
     _nTotal := nTotal; _hardness := _hardness i; _d := _d i; _z := _z i;
     _fE := _fE i; _tC := _tC i;
     _relativeMisalignment := _relativeMisalignment i; _h := _h i;
     _phi := _phi i; _tW := _tW i; _f := _f i; _dOi := _dOi i;
     _dRi := _dRi i; _dH := _dH i; _hType := _hType i;
     _reversible := _reversible i; _toothEnd := _toothEnd i;
     _flexible := _flexible i; _y := _y i |}.


Definition with_dH (i : Inputs) (dH : float) : Inputs :=
  {| _t := _t i; _dRe := _dRe i; _supplyShockType := _supplyShockType i;
     _loadShockType := _loadShockType i; _n := _n i; _nCyc := _nCyc i;
     _nTotal := _nTotal i; _hardness := _hardness i; _d := _d i; _z := _z i;
     _fE := _fE i; _tC := _tC i;
     _relativeMisalignment := _relativeMisalignment i; _h := _h i;
     _phi := _phi i; _tW := _tW i; _f := _f i; _dOi := _dOi i;
     _dRi := _dRi i; _dH := dH; _hType := _hType i;
     _reversible := _reversible i; _toothEnd := _toothEnd i;
     _flexible := _flexible i; _y := _y i |}.


Definition with_flexible (i : Inputs) (flexible : bool) : Inputs :=
  {| _t := _t i; _dRe := _dRe i; _supplyShockType := _supplyShockType i;
     _loadShockType := _loadShockType i; _n := _n i; _nCyc := _nCyc i;
     _nTotal := _nTotal i; _hardness := _hardness i; _d := _d i; _z := _z i;
     _fE := _fE i; _tC := _tC i;
     _relativeMisalignment := _relativeMisalignment i; _h := _h i;
     _phi := _phi i; _tW := _tW i; _f := _f i; _dOi := _dOi i;
     _dRi := _dRi i; _dH := _dH i; _hType := _hType i;
     _reversible := _reversible i; _toothEnd := _toothEnd i;
     _flexible := flexible; _y := _y i |}.

(** [e] is raised by some evaluation of [**]. *)
Definition pow_raises (float_pow : float -> float -> result float) (e : exn)
    : Prop :=
  exists x y, float_pow x y = Raise e.

(** The hardness is not below the top bound of its scale: the case in
    which the hardness lookups fall off their last branch. *)
Definition falls_through (hardness : float) (hType : string) : Prop :=
  (hType = "Brinell" /\ (hardness <? 351) = false)
  \/ (hType = "Rockwell C" /\ (hardness <? 63) = false).

(** The shock types index the table of application factors. *)
Definition shock_in_range (supplyShockType loadShockType : Z) : Prop :=
  (-3 <= supplyShockType < 3)%Z /\ (-4 <= loadShockType < 4)%Z.

(** The attribute holds a Python float, or a numpy scalar. *)
Definition holds_float (d : attrs) (name : string) : Prop :=
  exists x, d !! name = Some (VFloat x).

Definition holds_np (d : attrs) (name : string) : Prop :=
  exists x, d !! name = Some (VNp x).

(** ** The pipeline in let-form

    [calculate_nf] lists what [calculate] assigns on a fresh object,
    latest first, and how the call ends: each value read back from
    [self] is the variable its assignment bound.  [calculate_nf_correct]
    below shows it is the run of [calculate]. *)
Definition nf_step (l : list (string * value)) (name : string)
    (rhs : result value)
    (k : value -> list (string * value) ->
         list (string * value) * result unit)
    : list (string * value) * result unit :=
  match rhs with
  | Return v => k v ((name, v) :: l)
  | Raise e => (l, Raise e)
  end.

Section PipelineLetForm.

Variable psiToPa : float -> float.
Variable mToInch : float -> float.
Variable float_pow : float -> float -> result float.
Variable np_tan : float -> float.

Definition calculate_nf_tail (i : Inputs)
    (appFactor splineLF teethLoadkM allowCompStress factoredCompStress : value)
    (l : list (string * value)) : list (string * value) * result unit :=
  nf_step l "_compSafetyFactor"
    (Return allowCompStress / Return factoredCompStress)%py
    (fun _ l =>
  nf_step l "_burstRad"
    (getBurstingRadialStress np_tan (_t i) (_phi i) (_d i) (_tW i) (_f i))
    (fun burstRad l =>
  nf_step l "_burstCentrifugal"
    (getBurstingCentrifugalStress psiToPa mToInch float_pow
       (_n i) (_dOi i) (_dRi i))
    (fun burstCentrifugal l =>
  nf_step l "_burstTens"
    (getBurstingTensileStress float_pow (_t i) (_d i) (_fE i) (_y i))
    (fun burstTens l =>
  nf_step l "_burstTotal"
    (getTotalBurstingStress appFactor teethLoadkM burstRad burstCentrifugal
       burstTens)
    (fun burstTotal l =>
  nf_step l "_allowBurstStress"
    (getAllowableBurstingStressByHardness psiToPa (_hardness i) (_hType i))
    (fun allowBurstStress l =>
  nf_step l "_burstSafetyFactor"
    (getBurstingSafetyFactor burstTotal allowBurstStress splineLF)
    (fun _ l => (l, Return tt)))))))).

Definition calculate_nf (i : Inputs) : list (string * value) * result unit :=
  nf_step [] "_shaftStress"
    (if _dH i =? 0 then solidShaftStress float_pow (_t i) (_dRe i)
     else hollowShaftStress float_pow (_t i) (_dRe i) (_dH i))
    (fun shaftStress l =>
  nf_step l "_appFactor"
    (getSplineApplicationFactor (_supplyShockType i) (_loadShockType i))
    (fun appFactor l =>
  let splineLF := VFloat (getLifeFactor (_nCyc i) (_reversible i)) in
  let l := ("_splineLF", splineLF) :: l in
  nf_step l "_allowShaftStress"
    (getAllowableShearStressByHardness psiToPa (_hardness i) (_hType i))
    (fun allowShaftStress l =>
  nf_step l "_maxShaftStress"
    (maximumShaftStress shaftStress appFactor splineLF)
    (fun maxShaftStress l =>
  nf_step l "_shaftSafetyFactor"
    (getShaftSafetyFactor maxShaftStress allowShaftStress)
    (fun _ l =>
  nf_step l "_teethLoadkM"
    (getLoadDistributionFactorSpline (_relativeMisalignment i) (_fE i))
    (fun teethLoadkM l =>
  nf_step l "_teethShearStress"
    (getTeethShearStress (_t i) teethLoadkM (_d i) (_z i) (_fE i) (_tC i))
    (fun teethShearStress l =>
  nf_step l "_maxTeethShearStress"
    (maximumShaftStress teethShearStress appFactor splineLF)
    (fun maxTeethShearStress l =>
  nf_step l "_teethSafetyFactor"
    (getShaftSafetyFactor maxTeethShearStress allowShaftStress)
    (fun _ l =>
  nf_step l "_compStress"
    (getCompressiveStress (_t i) teethLoadkM (_d i) (_z i) (_fE i) (_h i))
    (fun compStress l =>
  nf_step l "_allowCompStress"
    (getAllowableCompressiveStressForSplines psiToPa
       (_hardness i) (_hType i) (_toothEnd i))
    (fun allowCompStress l =>
  if _flexible i then
    let lifeWear := getSplineWearLifeFactor (_nTotal i) in
    let l := ("_lifeWear", lifeWear) :: l in
    nf_step l "_factoredCompStress"
      (getAllowableCompressiveStress compStress appFactor lifeWear true)
      (fun factoredCompStress l =>
         calculate_nf_tail i appFactor splineLF teethLoadkM allowCompStress
           factoredCompStress l)
  else
    nf_step l "_factoredCompStress"
      (getAllowableCompressiveStress compStress appFactor splineLF false)
      (fun factoredCompStress l =>
         calculate_nf_tail i appFactor splineLF teethLoadkM allowCompStress
           factoredCompStress l)))))))))))).

End PipelineLetForm.

Definition with_hardness (i : Inputs) (hardness : float) : Inputs :=
  {| _t := _t i; _dRe := _dRe i; _supplyShockType := _supplyShockType i;
     _loadShockType := _loadShockType i; _n := _n i; _nCyc := _nCyc i;
     _nTotal := _nTotal i; _hardness := hardness; _d := _d i; _z := _z i;
     _fE := _fE i; _tC := _tC i;
     _relativeMisalignment := _relativeMisalignment i; _h := _h i;
     _phi := _phi i; _tW := _tW i; _f := _f i; _dOi := _dOi i;
     _dRi := _dRi i; _dH := _dH i; _hType := _hType i;
     _reversible := _reversible i; _toothEnd := _toothEnd i;
     _flexible := _flexible i; _y := _y i |}.

Definition with_supplyShockType (i : Inputs) (supplyShockType : Z) : Inputs :=
  {| _t := _t i; _dRe := _dRe i; _supplyShockType := supplyShockType;
     _loadShockType := _loadShockType i; _n := _n i; _nCyc := _nCyc i;
     _nTotal := _nTotal i; _hardness := _hardness i; _d := _d i; _z := _z i;
     _fE := _fE i; _tC := _tC i;
     _relativeMisalignment := _relativeMisalignment i; _h := _h i;
     _phi := _phi i; _tW := _tW i; _f := _f i; _dOi := _dOi i;
     _dRi := _dRi i; _dH := _dH i; _hType := _hType i;
     _reversible := _reversible i; _toothEnd := _toothEnd i;
     _flexible := _flexible i; _y := _y i |}.

Definition with_z (i : Inputs) (z : float) : Inputs :=
  {| _t := _t i; _dRe := _dRe i; _supplyShockType := _supplyShockType i;
     _loadShockType := _loadShockType i; _n := _n i; _nCyc := _nCyc i;
     _nTotal := _nTotal i; _hardness := _hardness i; _d := _d i; _z := z;
     _fE := _fE i; _tC := _tC i;
     _relativeMisalignment := _relativeMisalignment i; _h := _h i;
     _phi := _phi i; _tW := _tW i; _f := _f i; _dOi := _dOi i;
     _dRi := _dRi i; _dH := _dH i; _hType := _hType i;
     _reversible := _reversible i; _toothEnd := _toothEnd i;
     _flexible := _flexible i; _y := _y i |}.

(* ===================================================================== *)
(** ** The report: [__repr__] and [__str__] *)
(* ===================================================================== *)

(** The line feed of the Python literals. *)
Definition nl : string := String (Ascii.ascii_of_nat 10) EmptyString.

(** The pieces [__repr__] appends to [outStr], in order: a literal, a
    template filled with [self.<name>/1.0e6], or a template filled with
    [self.<name>]; a template is given by the text before and after
    its [{0}]. *)
Inductive piece : Type :=
  | Lit (text : string)
  | Mpa (before name after : string)
  | Plain (before name after : string).

Definition report_pieces : list piece :=
  [ Lit ("DudleyMethodSpline object" ++ nl ++ nl);
    Lit ("Shaft Stress Calculations" ++ nl ++ nl);
    Mpa "Shaft Stress: " "_shaftStress" ("MPa" ++ nl);
    Mpa "Allowable Shear Stress: " "_allowShaftStress" ("MPa" ++ nl ++ nl);
    Lit "Shaft Stress - adjusted for application and life";
    Mpa ": " "_maxShaftStress" ("MPa" ++ nl);
    Plain "Shaft Safety Factor: " "_shaftSafetyFactor" (nl ++ nl);
    Lit ("Teeth Shear Stress" ++ nl ++ nl);
    Mpa "Teeth Shear Stress: " "_teethShearStress" ("MPa" ++ nl);
    Mpa "Teeth Max Stress: " "_maxTeethShearStress" ("MPa" ++ nl);
    Plain "Teeth Safety Factor: " "_teethSafetyFactor" (nl ++ nl);
    Lit ("Compressive Stress" ++ nl ++ nl);
    Mpa "Compressive Stress: " "_compStress" ("MPa" ++ nl);
    Mpa "Allowable Compressive Stress: " "_allowCompStress" ("MPa" ++ nl);
    Mpa "Factored Compressive Stress: " "_factoredCompStress" ("MPa" ++ nl);
    Plain "Compressive Safety Factor: " "_compSafetyFactor" (nl ++ nl);
    Lit ("Bursting Stress" ++ nl ++ nl);
    Mpa "Bursting Stress - Radial: " "_burstRad" nl;
    Mpa "Bursting Stress - Centrifugal: " "_burstCentrifugal" nl;
    Mpa "Bursting Stress - Tensile: " "_burstTens" nl;
    Mpa "Bursting Stress - Total: " "_burstTotal" nl;
    Mpa "Allowable Bursting Stress: " "_allowBurstStress" ("MPa" ++ nl);
    Plain "Bursting Safety Factor: " "_burstSafetyFactor" "";
    Lit (nl ++ nl ++ "Factors" ++ nl ++ nl);
    Plain "Spline Application Factor, Ka: " "_appFactor" nl;
    Plain "Fatigue Life Factor, Lf: " "_splineLF" nl;
    Plain "Load distibution Factor - Teeth: " "_teethLoadkM" nl ]%string.

Section Report.

Variable psiToPa : float -> float.
Variable mToInch : float -> float.
Variable float_pow : float -> float -> result float.
Variable np_tan : float -> float.

(** ['{0}'.format(v)], the text Python prints for a value. *)
Variable fmt : value -> string.

(** The text one piece adds, on the attributes [d]. *)
Definition piece_text (d : attrs) (p : piece) : result string :=
  match p with
  | Lit text => Return text
  | Mpa before name after =>
      let* v := attr d name in
      let* q := truediv v (VFloat 1.0e6) in
      Return (before ++ fmt q ++ after)%string
  | Plain before name after =>
      let* v := attr d name in
      Return (before ++ fmt v ++ after)%string
  end.

(** [outStr += ...] for each piece; the first exception ends it. *)
Fixpoint append_pieces (d : attrs) (ps : list piece) (outStr : string)
    : result string :=
  match ps with
  | [] => Return outStr
  | p :: rest =>
      let* text := piece_text d p in
      append_pieces d rest (outStr ++ text)%string
  end.

(** [__repr__]: calculate, then format every result; the wear life
    factor is reported when the attribute exists. *)
Definition __repr__ (self : DudleyMethodSpline)
    : DudleyMethodSpline * result string :=
  match calculate psiToPa mToInch float_pow np_tan self with
  | (self', Raise e) => (self', Raise e)
  | (self', Return _) =>
      (self',
       let* outStr := append_pieces (computed self') report_pieces "" in
       match computed self' !! "_lifeWear" with
       | Some lifeWear =>
           Return (outStr ++ "Flexible Life Factor, Lw: " ++ fmt lifeWear
                   ++ nl)%string
       | None => Return outStr
       end)
  end.

Definition __str__ (self : DudleyMethodSpline)
    : DudleyMethodSpline * result string :=
  __repr__ self.

End Report.

(** A stand-in for Python's float formatting, to run the report. *)
Definition sample_fmt (v : value) : string :=
  match v with
  | VFloat _ => "<float>"
  | VNp _ => "<float64>"
  | VNone => "None"
  end.

(** The attribute a piece reads, if any. *)
Definition piece_name (p : piece) : option string :=
  match p with
  | Lit _ => None
  | Mpa _ name _ | Plain _ name _ => Some name
  end.

(* ===================================================================== *)
(** ** The entry panel: from the selections to the constructor call *)
(* ===================================================================== *)

(** [l.index(x)]: the position of the first occurrence; [None] stands
    for Python's [ValueError]. *)
Fixpoint list_index (l : list string) (x : string) : option nat :=
  match l with
  | [] => None
  | y :: rest =>
      if String.eqb y x then Some 0%nat
      else option_map S (list_index rest x)
  end.

(** The choices [contentSetup] offers, and the table [calculateDudley]
    decodes the hardness choice with.  The table holds the hardness as a
    Python int; the run only compares it, and the comparisons agree with
    those of the float of the same value. *)
Module DMSEntryPanel.

Definition _hardness : list string :=
  ["Brinell 160-200"; "Brinell 230-260"; "Brinell 302-351";
   "Rockwell C 33-38"; "Rockwell C 42-46"; "Rockwell C 48-53";
   "Rockwell C 58-63"].

Definition _powerSources : list string :=
  ["Uniform (turbine,motor)"; "Light shock (hydraulic motor)";
   "Medium shock (internal combustion engine)"].

Definition _loadTypes : list string :=
  ["Uniform (generator,fan)"; "Light Shock (oscillating, pump,etc.)";
   "Intermittent Shock(actuating pumps, etc)";
   "Heavy Shock,(punches, shears, etc)"].

Definition _rot : list string := ["Unidirectional"; "Fully-reversed"].

Definition _toothProf : list string := ["Straight"; "Crowned"].

Definition hardnessReference : list (string * float) :=
  [("Brinell", 180); ("Brinell", 240); ("Brinell", 320);
   ("Rockwell C", 35); ("Rockwell C", 44); ("Rockwell C", 50);
   ("Rockwell C", 60)].

End DMSEntryPanel.

(** The numbers of the geometry form and of the load form. *)
Record GeomData : Type := {
  boreDiameter : float;               (* 'Bore Diameter, Dh [m]' *)
  shaftOutsideDiameter : float;       (* 'Outside Diameter of Shaft, Doi [m]' *)
  pitchDiameter : float;              (* 'Pitch Diameter, D [m]' *)
  shaftRootDiameter : float;          (* 'Root Diameter of the Shaft, Dre [m]' *)
  hubTeethInnerDiameter : float;      (* 'Inner Diameter of the Hub Teeth, [m]' *)
  shaftTeethOutsideDiameter : float;  (* 'Outside Diameter of the Shaft Teeth, Dri [m]' *)
  misalignment : float;               (* 'Relative Misalignment of Shaft/Hub ...' *)
  teethContactLength : float;         (* 'Length of the teeth contact, F [m]' *)
  toothChordalThickness : float;      (* 'Tooth chordal thickness, tC [m]' *)
  numberOfTeeth : float;              (* 'Number of teeth, z []' *)
  pressureAngle : float;              (* 'Pressure angle, phi [deg]' *)
  hubWallThickness : float            (* 'Hub wall thickness, tW [m]' *)
}.

Record TorqData : Type := {
  torque : float;                     (* 'Torque, T [Nm]' *)
  shaftSpeed : float                  (* 'Shaft Speed, n [rev/min]' *)
}.

(** The selections of the general-data form. *)
Record FactData : Type := {
  materialHardness : string;          (* 'Material Hardness' *)
  powerSource : string;               (* 'Power Source' *)
  loadType : string;                  (* 'Load Type' *)
  rotationDirection : string;         (* 'Rotation Direction' *)
  toothProfile : string;              (* 'Tooth profile' *)
  isFlexible : string                 (* 'Flexible?' *)
}.

(** The arguments [calculateDudley] calls the constructor with.  The
    two cycle counts are taken as the floats their expressions
    [10**float(...)-1] evaluate to; [y] keeps its default. *)
Definition calculateDudley_inputs (np_deg2rad : float -> float)
    (geomData : GeomData) (torqData : TorqData) (factData : FactData)
    (nCyc nTotal : float) : option Inputs :=
  k ← list_index DMSEntryPanel._hardness (materialHardness factData);
  hardness ← DMSEntryPanel.hardnessReference !! k;
  supplyShockType ← list_index DMSEntryPanel._powerSources
                      (powerSource factData);
  loadShockType ← list_index DMSEntryPanel._loadTypes (loadType factData);
  Some {| _t := torque torqData;
          _dRe := shaftRootDiameter geomData;
          _supplyShockType := Z.of_nat supplyShockType;
          _loadShockType := Z.of_nat loadShockType;
          _n := shaftSpeed torqData;
          _nCyc := nCyc;
          _nTotal := nTotal;
          _hardness := snd hardness;
          _d := pitchDiameter geomData;
          _z := numberOfTeeth geomData;
          _fE := teethContactLength geomData;
          _tC := toothChordalThickness geomData;
          _relativeMisalignment := misalignment geomData;
          _h := (shaftTeethOutsideDiameter geomData
                 - hubTeethInnerDiameter geomData) / 2.0;
          _phi := np_deg2rad (pressureAngle geomData);
          _tW := hubWallThickness geomData;
          _f := teethContactLength geomData;
          _dOi := shaftOutsideDiameter geomData;
          _dRi := shaftTeethOutsideDiameter geomData;
          _dH := boreDiameter geomData;
          _hType := fst hardness;
          _reversible := String.eqb (rotationDirection factData)
                           "Fully-reversed";
          _toothEnd := toothProfile factData;
          _flexible := String.eqb (isFlexible factData) "Yes";
          _y := 1.5 |}.

(** A filled-in panel, to run the decoding. *)
Definition sample_geomData : GeomData :=
  {| boreDiameter := 0; shaftOutsideDiameter := 0.06; pitchDiameter := 0.035;
     shaftRootDiameter := 0.03; hubTeethInnerDiameter := 0.036;
     shaftTeethOutsideDiameter := 0.04; misalignment := 0.001;
     teethContactLength := 0.03; toothChordalThickness := 0.002;
     numberOfTeeth := 20; pressureAngle := 30; hubWallThickness := 0.01 |}.

Definition sample_torqData : TorqData :=
  {| torque := 100; shaftSpeed := 3000 |}.

Definition sample_factData : FactData :=
  {| materialHardness := "Rockwell C 58-63";
     powerSource := "Medium shock (internal combustion engine)";
     loadType := "Uniform (generator,fan)";
     rotationDirection := "Unidirectional";
     toothProfile := "Straight";
     isFlexible := "Yes" |}.

(* ===================================================================== *)
(** ** Order facts on binary64 comparisons *)
(* ===================================================================== *)

Module FloatOrder.

Lemma lex_lt_trans (ex ey ez : Z) (mx my mz : positive) :
match (ex ?= ey)%Z with Lt => Lt | Gt => Gt | Eq => (mx ?= my)%positive end = Lt ->
match (ey ?= ez)%Z with Lt => Lt | Gt => Gt | Eq => (my ?= mz)%positive end = Lt ->
match (ex ?= ez)%Z with Lt => Lt | Gt => Gt | Eq => (mx ?= mz)%positive end = Lt.
Proof.
destruct (Z.compare_spec ex ey), (Z.compare_spec ey ez), (Z.compare_spec ex ez);
  try discriminate; try reflexivity; try lia.
rewrite !Pos.compare_lt_iff. lia.
Qed.

Lemma lex_gt_trans (ex ey ez : Z) (mx my mz : positive) :
match (ex ?= ey)%Z with Lt => Gt | Gt => Lt | Eq => CompOpp (mx ?= my)%positive end = Lt ->
match (ey ?= ez)%Z with Lt => Gt | Gt => Lt | Eq => CompOpp (my ?= mz)%positive end = Lt ->
match (ex ?= ez)%Z with Lt => Gt | Gt => Lt | Eq => CompOpp (mx ?= mz)%positive end = Lt.
Proof.
destruct (Z.compare_spec ex ey), (Z.compare_spec ey ez), (Z.compare_spec ex ez);
  try discriminate; try reflexivity; try lia.
rewrite <- !Pos.compare_antisym, !Pos.compare_lt_iff. lia.
Qed.

Lemma SFcompare_Lt_trans x y z :
SFcompare x y = Some Lt -> SFcompare y z = Some Lt -> SFcompare x z = Some Lt.
Proof.
destruct x as [sx|sx| |sx mx ex], y as [sy|sy| |sy my ey], z as [sz|sz| |sz mz ez];
  simpl; try (destruct sx); try (destruct sy); try (destruct sz); try congruence.
all: change (Pos.compare_cont Eq) with Pos.compare.
all: intros H1 H2; injection H1 as H1; injection H2 as H2; f_equal.
- eapply lex_gt_trans; eauto.
- eapply lex_lt_trans; eauto.
Qed.

Lemma SFltb_Lt x y : SFltb x y = true <-> SFcompare x y = Some Lt.
Proof.
unfold SFltb. destruct (SFcompare x y) as [[ | | ]|]; split; congruence.
Qed.

Lemma SFcompare_antisym_Lt x y :
SFcompare x y = Some Lt -> SFcompare y x = Some Gt.
Proof.
destruct x as [sx|sx| |sx mx ex], y as [sy|sy| |sy my ey];
  simpl; try (destruct sx); try (destruct sy); try congruence.
all: change (Pos.compare_cont Eq) with Pos.compare.
all: intros H; injection H as H; f_equal.
all: rewrite (Z.compare_antisym ex ey), (Pos.compare_antisym mx my).
all: destruct (ex ?= ey)%Z; simpl in *; try congruence.
all: destruct (mx ?= my)%positive; simpl in *; congruence.
Qed.

(** [<] is transitive. *)
Lemma ltb_trans (x y z : float) :
(x <? y) = true -> (y <? z) = true -> (x <? z) = true.
Proof.
rewrite !FloatAxioms.ltb_spec, !SFltb_Lt. apply SFcompare_Lt_trans.
Qed.

(** [y <= x] excludes [x < y]. *)
Lemma leb_not_ltb (x y : float) : (y <=? x) = true -> (x <? y) = false.
Proof.
rewrite FloatAxioms.leb_spec, FloatAxioms.ltb_spec. unfold SFleb, SFltb.
destruct (SFcompare (Prim2SF x) (Prim2SF y)) as [[ | | ]|] eqn:E;
  try reflexivity.
apply SFcompare_antisym_Lt in E. rewrite E. discriminate.
Qed.

(** A value at or above [b] is not below any bound [a < b]. *)
Lemma above_not_ltb (x a b : float) :
(b <=? x) = true -> (a <? b) = true -> (x <? a) = false.
Proof.
intros Hb Hab. destruct (x <? a) eqn:E; [|reflexivity].
pose proof (ltb_trans _ _ _ E Hab) as Hxb.
rewrite (leb_not_ltb _ _ Hb) in Hxb. discriminate.
Qed.

(** A value below [a] is below any bound [b > a]. *)
Lemma below_ltb (x a b : float) :
(x <? a) = true -> (a <? b) = true -> (x <? b) = true.
Proof. apply ltb_trans. Qed.

End FloatOrder.

(* ===================================================================== *)
(** ** Running statements: equations for symbolic execution *)
(* ===================================================================== *)

Lemma attr_insert (d : attrs) (k k' : string) (v : value) :
  attr (<[k := v]> d) k' = if String.eqb k k' then Return v else attr d k'.
Proof.
  unfold attr. destruct (String.eqb_spec k k') as [->|Hne].
  - now rewrite lookup_insert_eq.
  - now rewrite lookup_insert_ne.
Qed.

Lemma run_assign (n : string) (rhs : attrs -> result value) (d : attrs) :
  assign n rhs d =
  match rhs d with
  | Return v => (<[n := v]> d, Return tt)
  | Raise e => (d, Raise e)
  end.
Proof. reflexivity. Qed.

Lemma run_seq_assign (n : string) (rhs : attrs -> result value) (s : stmt)
    (d : attrs) :
  seq (assign n rhs) s d =
  match rhs d with
  | Return v => s (<[n := v]> d)
  | Raise e => (d, Raise e)
  end.
Proof. unfold seq, assign. now destruct (rhs d). Qed.

Lemma run_seq_assoc (s1 s2 s3 : stmt) (d : attrs) :
  seq (seq s1 s2) s3 d = seq s1 (seq s2 s3) d.
Proof.
  unfold seq. destruct (s1 d) as [d1 [[]|e]]; [|reflexivity].
  reflexivity.
Qed.

Lemma attr_inserts (l : list (string * value)) (d : attrs) (k : string) :
  attr (inserts l d) k =
  match assoc l k with
  | Some v => Return v
  | None => attr d k
  end.
Proof.
  induction l as [|[k' v] l IH]; simpl; [reflexivity|].
  rewrite attr_insert. destruct (String.eqb k' k); [reflexivity|apply IH].
Qed.

Lemma lookup_inserts (l : list (string * value)) (d : attrs) (k : string) :
  inserts l d !! k =
  match assoc l k with
  | Some v => Some v
  | None => d !! k
  end.
Proof.
  induction l as [|[k' v] l IH]; simpl; [reflexivity|].
  destruct (String.eqb_spec k' k) as [->|Hne].
  - now rewrite lookup_insert_eq.
  - now rewrite lookup_insert_ne.
Qed.

Lemma run_seq_assign_inserts n rhs s l d :
  seq (assign n rhs) s (inserts l d) =
  match rhs (inserts l d) with
  | Return v => s (inserts ((n, v) :: l) d)
  | Raise e => (inserts l d, Raise e)
  end.
Proof. apply run_seq_assign. Qed.

Lemma run_assign_inserts n rhs l d :
  assign n rhs (inserts l d) =
  match rhs (inserts l d) with
  | Return v => (inserts ((n, v) :: l) d, Return tt)
  | Raise e => (inserts l d, Raise e)
  end.
Proof. apply run_assign. Qed.

(** What a run started on [d] has assigned is what a run started on
    nothing has assigned, laid over [d]. *)
Lemma inserts_overlay l d : inserts l d = inserts l ∅ ∪ d.
Proof.
  induction l as [|[k v] l IH]; simpl.
  - now rewrite (left_id_L ∅ (∪)).
  - now rewrite IH, insert_union_l.
Qed.

(** Case on the outcome of the right-hand side being evaluated. *)
Ltac case_rhs :=
  match goal with
  | |- context [match ?x with Return _ => _ | Raise _ => _ end] =>
      lazymatch x with
      | context [match _ with Return _ => _ | Raise _ => _ end] => fail
      | _ => destruct x as [?v|?e] eqn:?E
      end
  end.

(** Run the next statement of the goal on the assignments made so far. *)
Ltac exec_step :=
  rewrite ?run_seq_assoc, ?run_seq_assign_inserts, ?run_assign_inserts;
  cbv beta; rewrite ?attr_inserts;
  cbv beta iota delta [assoc String.eqb Ascii.eqb Bool.eqb bind fl ret].

(* ===================================================================== *)
(** ** Life factor (C3) *)
(* ===================================================================== *)

(** C3: for every cycle count and both rotation modes, [getLifeFactor] is
    the step function over the breakpoints 1000, 10000, 100000, 1000000
    with values 1.8, 1.0 and then the (unidirectional, fully-reversed)
    pairs (0.5, 0.4), (0.4, 0.3), (0.3, 0.2); the comparisons are strict,
    so a value at a breakpoint falls into the higher bucket: 999 gives
    1.8 and 1000 gives 1.0. *)
Theorem C3_getLifeFactor_step_function :
  (forall nCyc reversible,
     getLifeFactor nCyc reversible = spec_getLifeFactor nCyc reversible)
  /\ (forall nCyc reversible,
        ((nCyc <? 1000) = true -> getLifeFactor nCyc reversible = 1.8)
        /\ ((1000 <=? nCyc) = true -> (nCyc <? 10000) = true ->
            getLifeFactor nCyc reversible = 1.0)
        /\ ((10000 <=? nCyc) = true -> (nCyc <? 100000) = true ->
            getLifeFactor nCyc reversible = if reversible then 0.4 else 0.5)
        /\ ((100000 <=? nCyc) = true -> (nCyc <? 1000000) = true ->
            getLifeFactor nCyc reversible = if reversible then 0.3 else 0.4)
        /\ ((1000000 <=? nCyc) = true ->
            getLifeFactor nCyc reversible = if reversible then 0.2 else 0.3))
  /\ (forall reversible,
        getLifeFactor 999 reversible = 1.8
        /\ getLifeFactor 1000 reversible = 1.0
        /\ getLifeFactor 10000 reversible = (if reversible then 0.4 else 0.5)
        /\ getLifeFactor 100000 reversible = (if reversible then 0.3 else 0.4)
        /\ getLifeFactor 1000000 reversible = (if reversible then 0.2 else 0.3)).
Proof.
  split; [|split].
  - intros nCyc reversible.
    unfold getLifeFactor, spec_getLifeFactor, spec_lifeFactorTable; simpl.
    repeat (destruct (nCyc <? _); [now destruct reversible|]).
    now destruct reversible.
  - intros nCyc reversible. unfold getLifeFactor.
    repeat split.
    + intros ->. now destruct reversible.
    + intros H1 H2.
      rewrite (FloatOrder.leb_not_ltb _ _ H1), H2. now destruct reversible.
    + intros H1 H2.
      rewrite (FloatOrder.above_not_ltb nCyc 1000 10000 H1 eq_refl).
      now rewrite (FloatOrder.leb_not_ltb _ _ H1), H2.
    + intros H1 H2.
      rewrite (FloatOrder.above_not_ltb nCyc 1000 100000 H1 eq_refl).
      rewrite (FloatOrder.above_not_ltb nCyc 10000 100000 H1 eq_refl).
      now rewrite (FloatOrder.leb_not_ltb _ _ H1), H2.
    + intros H1.
      rewrite (FloatOrder.above_not_ltb nCyc 1000 1000000 H1 eq_refl).
      rewrite (FloatOrder.above_not_ltb nCyc 10000 1000000 H1 eq_refl).
      rewrite (FloatOrder.above_not_ltb nCyc 100000 1000000 H1 eq_refl).
      now rewrite (FloatOrder.leb_not_ltb _ _ H1).
  - intros []; repeat split; reflexivity.
Qed.

(** The bucket [1000, 10000) at a concrete count. *)
Lemma C3_witness :
  (1000 <=? 5000) = true /\ (5000 <? 10000) = true
  /\ getLifeFactor 5000 true = 1.0.
Proof.
  split; [reflexivity|split; [reflexivity|]].
  apply (proj1 (proj2 (proj1 (proj2 C3_getLifeFactor_step_function) 5000 true)));
    reflexivity.
Defined.

(* ===================================================================== *)
(** ** Total bursting stress (C4) *)
(* ===================================================================== *)

(** C4: the total bursting stress is Ka·Km·(S1+S3) + S2, the centrifugal
    component S2 being added outside the product with the application
    and load-distribution factors; at (2, 3, 5, 7, 11) it is 103.  In the
    pipeline S1 is a numpy scalar, and so is the total. *)
Theorem C4_getTotalBurstingStress_formula :
  (forall kA kM s1 s2 s3 : float,
     getTotalBurstingStress (VFloat kA) (VFloat kM) (VFloat s1) (VFloat s2)
       (VFloat s3)
     = Return (VFloat (kA * kM * (s1 + s3) + s2)))
  /\ (forall kA kM s1 s2 s3 : float,
        getTotalBurstingStress (VFloat kA) (VFloat kM) (VNp s1) (VFloat s2)
          (VFloat s3)
        = Return (VNp (kA * kM * (s1 + s3) + s2)))
  /\ getTotalBurstingStress (VFloat 2) (VFloat 3) (VFloat 5) (VFloat 7)
       (VFloat 11)
     = Return (VFloat 103).
Proof.
  repeat split; intros; reflexivity.
Qed.

(* ===================================================================== *)
(** ** Load-distribution factor (C6) *)
(* ===================================================================== *)

Lemma bracket_spec_bucket (x b0 b1 b2 b3 : float) :
  clamp3 (bracket x [b0; b1; b2; b3] 0) =
  Z.of_nat (spec_bucket [b0; b1; b2; b3] x).
Proof.
  unfold spec_bucket; simpl.
  repeat (destruct (x <? _); [reflexivity|]). reflexivity.
Qed.

Lemma spec_bucket_le3 (x b0 b1 b2 b3 : float) :
  (spec_bucket [b0; b1; b2; b3] x <= 3)%nat.
Proof.
  unfold spec_bucket; simpl.
  repeat (destruct (x <? _); [lia|]). lia.
Qed.

Lemma getitem_nat {A : Type} (l : list A) (n : nat) (x : A) :
  l !! n = Some x -> getitem l (Z.of_nat n) = Return x.
Proof.
  intros H. unfold getitem. cbv zeta.
  destruct (Z.ltb_spec (Z.of_nat n) 0) as [Hlt|_]; [lia|].
  destruct (Z.ltb_spec (Z.of_nat n) 0) as [Hlt|_]; [lia|].
  now rewrite Nat2Z.id, H.
Qed.

(** C6: the load-distribution lookup brackets the misalignment against
    0.001, 0.002, 0.004, 0.008 and the face width against 12.7e-3,
    25.4e-3, 50.8e-3, 101e-3 into bucket indices 0 to 3 and returns the
    entry of the 4×4 table at them.  The index is the number of
    breakpoints not above the value, held at 3: 0 below the first
    breakpoint, 1 and 2 between the next ones, and 3 from the third
    breakpoint on, so a value at or above the top breakpoint gets index
    3 and no error; misalignment 1.0 with face width 1.0 gives 3.0, as
    misalignment 0.008 with face width 0.101 does. *)
Theorem C6_getLoadDistributionFactorSpline_buckets :
  (forall relativeMisalignment fE,
     let m := spec_bucket [0.001; 0.002; 0.004; 0.008] relativeMisalignment in
     let n := spec_bucket [12.7e-3; 25.4e-3; 50.8e-3; 101e-3] fE in
     (m <= 3)%nat /\ (n <= 3)%nat
     /\ exists row k,
          [[1; 1; 1; 1.5]; [1; 1; 1.5; 2]; [1; 1.5; 2; 2.5]; [1.5; 2; 2.5; 3]]
            !! m = Some row
          /\ row !! n = Some k
          /\ getLoadDistributionFactorSpline relativeMisalignment fE
             = Return (VFloat k))
  /\ (forall relativeMisalignment,
        let m :=
          spec_bucket [0.001; 0.002; 0.004; 0.008] relativeMisalignment in
        ((relativeMisalignment <? 0.001) = true -> m = 0%nat)
        /\ ((0.001 <=? relativeMisalignment) = true ->
            (relativeMisalignment <? 0.002) = true -> m = 1%nat)
        /\ ((0.002 <=? relativeMisalignment) = true ->
            (relativeMisalignment <? 0.004) = true -> m = 2%nat)
        /\ ((0.004 <=? relativeMisalignment) = true -> m = 3%nat)
        /\ ((0.008 <=? relativeMisalignment) = true -> m = 3%nat))
  /\ (forall fE,
        let n := spec_bucket [12.7e-3; 25.4e-3; 50.8e-3; 101e-3] fE in
        ((fE <? 12.7e-3) = true -> n = 0%nat)
        /\ ((12.7e-3 <=? fE) = true -> (fE <? 25.4e-3) = true -> n = 1%nat)
        /\ ((25.4e-3 <=? fE) = true -> (fE <? 50.8e-3) = true -> n = 2%nat)
        /\ ((50.8e-3 <=? fE) = true -> n = 3%nat)
        /\ ((101e-3 <=? fE) = true -> n = 3%nat))
  /\ getLoadDistributionFactorSpline 1.0 1.0 = Return (VFloat 3.0)
  /\ getLoadDistributionFactorSpline 0.008 0.101 = Return (VFloat 3.0).
Proof.
  split; [|split; [|split; [|split]]]; try reflexivity.
  - intros rm fE m n.
    pose proof (spec_bucket_le3 rm 0.001 0.002 0.004 0.008) as Hm.
    pose proof (spec_bucket_le3 fE 12.7e-3 25.4e-3 50.8e-3 101e-3) as Hn.
    fold m in Hm. fold n in Hn.
    split; [exact Hm|split; [exact Hn|]].
    assert (exists row,
              [[1; 1; 1; 1.5]; [1; 1; 1.5; 2]; [1; 1.5; 2; 2.5];
               [1.5; 2; 2.5; 3]] !! m = Some row
              /\ exists k, row !! n = Some k)
      as (row & Hrow & k & Hk).
    { destruct m as [|[|[|[|]]]]; [| | | |lia]; simpl;
        eexists; (split; [reflexivity|]);
        (destruct n as [|[|[|[|]]]]; [| | | |lia]; simpl; eexists; reflexivity). }
    exists row, k. split; [exact Hrow|split; [exact Hk|]].
    unfold getLoadDistributionFactorSpline, misalignmentBounds, faceWidthBounds.
    rewrite !bracket_spec_bucket. fold m n.
    change lookUp with [[1; 1; 1; 1.5]; [1; 1; 1.5; 2]; [1; 1.5; 2; 2.5];
                        [1.5; 2; 2.5; 3]].
    rewrite (getitem_nat _ _ _ Hrow). simpl.
    rewrite (getitem_nat _ _ _ Hk). reflexivity.
  - intros rm m. subst m. unfold spec_bucket; simpl.
    repeat split.
    + intros ->. reflexivity.
    + intros H1 H2. rewrite (FloatOrder.leb_not_ltb _ _ H1), H2. reflexivity.
    + intros H1 H2.
      rewrite (FloatOrder.above_not_ltb rm 0.001 0.002 H1 eq_refl).
      rewrite (FloatOrder.leb_not_ltb _ _ H1), H2. reflexivity.
    + intros H.
      rewrite (FloatOrder.above_not_ltb rm 0.001 0.004 H eq_refl).
      rewrite (FloatOrder.above_not_ltb rm 0.002 0.004 H eq_refl).
      rewrite (FloatOrder.leb_not_ltb _ _ H).
      now destruct (rm <? 0.008).
    + intros H.
      rewrite (FloatOrder.above_not_ltb rm 0.001 0.008 H eq_refl).
      rewrite (FloatOrder.above_not_ltb rm 0.002 0.008 H eq_refl).
      rewrite (FloatOrder.above_not_ltb rm 0.004 0.008 H eq_refl).
      now rewrite (FloatOrder.leb_not_ltb _ _ H).
  - intros fE n. subst n. unfold spec_bucket; simpl.
    repeat split.
    + intros ->. reflexivity.
    + intros H1 H2. rewrite (FloatOrder.leb_not_ltb _ _ H1), H2. reflexivity.
    + intros H1 H2.
      rewrite (FloatOrder.above_not_ltb fE 12.7e-3 25.4e-3 H1 eq_refl).
      rewrite (FloatOrder.leb_not_ltb _ _ H1), H2. reflexivity.
    + intros H.
      rewrite (FloatOrder.above_not_ltb fE 12.7e-3 50.8e-3 H eq_refl).
      rewrite (FloatOrder.above_not_ltb fE 25.4e-3 50.8e-3 H eq_refl).
      rewrite (FloatOrder.leb_not_ltb _ _ H).
      now destruct (fE <? 101e-3).
    + intros H.
      rewrite (FloatOrder.above_not_ltb fE 12.7e-3 101e-3 H eq_refl).
      rewrite (FloatOrder.above_not_ltb fE 25.4e-3 101e-3 H eq_refl).
      rewrite (FloatOrder.above_not_ltb fE 50.8e-3 101e-3 H eq_refl).
      now rewrite (FloatOrder.leb_not_ltb _ _ H).
Qed.

(** A misalignment far above the top breakpoint lands in bucket 3. *)
Lemma C6_witness :
  (0.008 <=? 1.0) = true
  /\ spec_bucket [0.001; 0.002; 0.004; 0.008] 1.0 = 3%nat.
Proof.
  split; [reflexivity|].
  destruct (proj1 (proj2 C6_getLoadDistributionFactorSpline_buckets) 1.0)
    as (_ & _ & _ & _ & H).
  apply H. reflexivity.
Defined.

(* ===================================================================== *)
(** ** Centrifugal bursting stress (C8) *)
(* ===================================================================== *)

(** C8: for every speed and diameters in meters, the centrifugal bursting
    stress is the PSI-domain formula 0.828e-6·n²·(2·Doi_in² + 0.424·Dri_in²)
    on the diameters converted to inches, converted to pascals by the
    pressure converter. *)
Theorem C8_getBurstingCentrifugalStress_formula
    (psiToPa mToInch : float -> float)
    (float_pow : float -> float -> result float)
    (n dOi dRi n2 dOi_in2 dRi_in2 : float) :
  float_pow n 2 = Return n2 ->
  float_pow (mToInch dOi) 2 = Return dOi_in2 ->
  float_pow (mToInch dRi) 2 = Return dRi_in2 ->
  getBurstingCentrifugalStress psiToPa mToInch float_pow n dOi dRi
  = Return (VFloat (psiToPa (spec_centrifugal_psi n2 dOi_in2 dRi_in2))).
Proof.
  intros Hn Ho Hr.
  unfold getBurstingCentrifugalStress, pow. rewrite Hn, Ho, Hr.
  reflexivity.
Qed.

(** The module's own test point: n = 2, dOi = 3, dRi = 5. *)
Lemma C8_witness :
  Sample.float_pow 2 2 = Return 4
  /\ Sample.float_pow (Sample.mToInch 3) 2
     = Return (Sample.mToInch 3 * Sample.mToInch 3)
  /\ Sample.float_pow (Sample.mToInch 5) 2
     = Return (Sample.mToInch 5 * Sample.mToInch 5)
  /\ getBurstingCentrifugalStress Sample.psiToPa Sample.mToInch
       Sample.float_pow 2 3 5
     = Return (VFloat (Sample.psiToPa
         (spec_centrifugal_psi 4 (Sample.mToInch 3 * Sample.mToInch 3)
            (Sample.mToInch 5 * Sample.mToInch 5)))).
Proof.
  split; [reflexivity|split; [reflexivity|split; [reflexivity|]]].
  apply C8_getBurstingCentrifugalStress_formula; reflexivity.
Defined.

(* ===================================================================== *)
(** ** The hardness-indexed lookups: where they raise and where they
       fall through *)
(* ===================================================================== *)

Section LookupFacts.

Variable psiToPa : float -> float.






Lemma wear_above (nCyc : float) :
  (1e10 <=? nCyc) = true -> getSplineWearLifeFactor nCyc = VNone.
Proof.
  intros H. unfold getSplineWearLifeFactor.
  rewrite (FloatOrder.above_not_ltb nCyc 1e4 1e10 H eq_refl).
  rewrite (FloatOrder.above_not_ltb nCyc 1e5 1e10 H eq_refl).
  rewrite (FloatOrder.above_not_ltb nCyc 1e6 1e10 H eq_refl).
  rewrite (FloatOrder.above_not_ltb nCyc 1e7 1e10 H eq_refl).
  rewrite (FloatOrder.above_not_ltb nCyc 1e8 1e10 H eq_refl).
  rewrite (FloatOrder.above_not_ltb nCyc 1e9 1e10 H eq_refl).
  now rewrite (FloatOrder.leb_not_ltb _ _ H).
Qed.

Lemma wear_below (nCyc : float) :
  (nCyc <? 1e10) = true ->
  In (getSplineWearLifeFactor nCyc)
     [VFloat 4.0; VFloat 2.8; VFloat 2.0; VFloat 1.4; VFloat 1.0;
      VFloat 0.7; VFloat 0.5].
Proof.
  intros H. unfold getSplineWearLifeFactor.
  destruct (nCyc <? 1e4); [simpl; auto|].
  destruct (nCyc <? 1e5); [simpl; auto|].
  destruct (nCyc <? 1e6); [simpl; auto|].
  destruct (nCyc <? 1e7); [simpl; auto|].
  destruct (nCyc <? 1e8); [simpl; auto 6|].
  destruct (nCyc <? 1e9); [simpl; auto 7|].
  rewrite H. simpl; auto 8.
Qed.

(** Dividing by [None] is a [TypeError], whatever the numerator. *)
Lemma factored_None (sC kA : value) :
  getAllowableCompressiveStress sC kA VNone true = Raise TypeError.
Proof. destruct sC, kA; reflexivity. Qed.

End LookupFacts.

(* ===================================================================== *)
(** ** The pipeline: running [calculate] *)
(* ===================================================================== *)

(** Start a run of [calculate] on a fresh object in the goal: the goal
    becomes a property [Q] of the run, which is then executed. *)
Ltac exec_init :=
  match goal with
  | |- context [calculate ?a ?b ?c ?d (fresh ?i)] =>
      pattern (calculate a b c d (fresh i))
  end;
  match goal with
  | |- ?P _ => let Q := fresh "Q" in set (Q := P)
  end;
  unfold calculate, fresh; cbn [stored computed];
  unfold calculate_body;
  match goal with
  | |- context [seq _ _ ?d] => change d with (inserts [] d)
  end.

(** Read attributes of the dictionary a run ended with. *)
Ltac exec_done :=
  try match goal with
      | Q := _ |- _ => subst Q
      end;
  cbv beta iota zeta;
  cbn [fst snd stored computed observe];
  rewrite ?lookup_inserts;
  cbv beta iota delta [assoc String.eqb Ascii.eqb Bool.eqb];
  rewrite ?lookup_empty.

(** Run to the end, closing each outcome with [tac]. *)
Ltac exec_all tac :=
  repeat (progress exec_step; try (case_rhs; [|exec_done; tac]));
  exec_done; tac.

Section PipelineFacts.

Variable psiToPa : float -> float.
Variable mToInch : float -> float.
Variable float_pow : float -> float -> result float.
Variable np_tan : float -> float.

Local Abbreviation calc := (calculate psiToPa mToInch float_pow np_tan).
Local Abbreviation new := (construct psiToPa mToInch float_pow np_tan).

Lemma init_autoCalc (i : Inputs) :
  __init__ psiToPa mToInch float_pow np_tan
    (_t i) (_dRe i) (_supplyShockType i) (_loadShockType i)
    (_n i) (_nCyc i) (_nTotal i) (_hardness i) (_d i) (_z i) (_fE i)
    (_tC i) (_relativeMisalignment i) (_h i) (_phi i) (_tW i) (_f i)
    (_dOi i) (_dRi i) true (_dH i) (_hType i) (_reversible i)
    (_toothEnd i) (_flexible i) (_y i)
  = calc (fresh i).
Proof. destruct i; reflexivity. Qed.

(** A constructor call that calculates raises what [calculate] raises. *)
Lemma construct_Raise (i : Inputs) (e : exn) :
  snd (calc (fresh i)) = Raise e -> new i true = Raise e.
Proof.
  unfold construct. rewrite init_autoCalc.
  destruct (calc (fresh i)) as [self [[]|e']]; simpl; congruence.
Qed.

(** The run of [calculate] on an object with attributes [d0] assigns
    what the run on a fresh object assigns, over [d0], and ends the
    same way. *)
Lemma calculate_body_frame (i : Inputs) (d0 : attrs) :
  calculate_body psiToPa mToInch float_pow np_tan i d0 =
  let (w, r) := calculate_body psiToPa mToInch float_pow np_tan i ∅ in
  (w ∪ d0, r).
Proof.
  unfold calculate_body. destruct (_flexible i).
  all: change d0 with (inserts [] d0);
    change (@empty attrs _) with (inserts [] (@empty attrs _)).
  all: repeat (progress exec_step;
               try (case_rhs;
                    [|apply (f_equal (fun x => (x, _))), inserts_overlay])).
  all: apply (f_equal (fun x => (x, _))), inserts_overlay.
Qed.

(** A second [calculate], which [__repr__] performs before it formats
    the report, leaves the object and the outcome as the first did. *)
Lemma calculate_twice (self : DudleyMethodSpline) :
  calc (fst (calc self)) = calc self.
Proof.
  destruct self as [i d0]. unfold calculate. cbn [stored computed].
  rewrite (calculate_body_frame i d0).
  destruct (calculate_body psiToPa mToInch float_pow np_tan i ∅)
    as [w r] eqn:Hrun.
  cbn [fst snd stored computed].
  rewrite (calculate_body_frame i (w ∪ d0)), Hrun.
  now rewrite (assoc_L (∪)), (idemp_L (∪) w).
Qed.

Lemma shaftStress_observed (i : Inputs) :
  observe "_shaftStress" (calc (fresh i)) =
  if _dH i =? 0 then solidShaftStress float_pow (_t i) (_dRe i)
  else hollowShaftStress float_pow (_t i) (_dRe i) (_dH i).
Proof.
  exec_init. destruct (_flexible i).
  all: exec_all ltac:(try reflexivity).
Qed.

Lemma factored_observed (i : Inputs) (fc : value) :
  computed (fst (calc (fresh i))) !! "_factoredCompStress" = Some fc ->
  exists sC kA,
    computed (fst (calc (fresh i))) !! "_compStress" = Some sC
    /\ computed (fst (calc (fresh i))) !! "_appFactor" = Some kA
    /\ if _flexible i
       then (ret sC * ret kA / ret (getSplineWearLifeFactor (_nTotal i)))%py
            = Return fc
       else (ret sC * ret kA /
             (fl 9 * fl (getLifeFactor (_nCyc i) (_reversible i))))%py
            = Return fc.
Proof.
  exec_init. destruct (_flexible i).
  all: exec_all ltac:(
    try discriminate;
    intros [= <-]; do 2 eexists;
    (split; [reflexivity|split; [reflexivity|]]);
    unfold fl, ret in *; simplify_eq; assumption).
Qed.



(** A flexible spline with [nTotal >= 1e10]: the wear factor is [None],
    and the run raises before the factored compressive stress is
    assigned. *)
Lemma wear_abort (i : Inputs) :
  _flexible i = true ->
  (1e10 <=? _nTotal i) = true ->
  (exists e, snd (calc (fresh i)) = Raise e)
  /\ computed (fst (calc (fresh i))) !! "_factoredCompStress" = None
  /\ computed (fst (calc (fresh i))) !! "_compSafetyFactor" = None
  /\ (is_Some (computed (fst (calc (fresh i))) !! "_lifeWear") ->
      computed (fst (calc (fresh i))) !! "_lifeWear" = Some VNone
      /\ snd (calc (fresh i)) = Raise TypeError).
Proof.
  intros Hflex Hn.
  exec_init. rewrite Hflex, (wear_above _ Hn).
  exec_all ltac:(
    rewrite ?factored_None in *; simplify_eq;
    (split; [eexists; reflexivity|]);
    (split; [reflexivity|]);
    (split; [reflexivity|]);
    first [intros _; split; reflexivity | intros [? [=]]]).
Qed.

End PipelineFacts.

(* ===================================================================== *)
(** ** Shaft stress (C1) *)
(* ===================================================================== *)

(** C1: for every input set, the shaft stress the pipeline assigns is
    [solidShaftStress(T, Dre)] = 16·T/(π·Dre³) when the comparison
    [dH == 0.0] holds and [hollowShaftStress(T, Dre, dH)] =
    16·T·Dre/(π·(Dre⁴ − Dh⁴)) when it does not, the powers being the
    values of [**] and π the float [np.pi]; as the division is one of
    Python floats, a denominator equal to zero raises
    [ZeroDivisionError], and when [**] raises, the pipeline raises the
    same exception.  The dispatch is the floating-point equality test
    with the literal zero. *)
Theorem C1_shaft_stress_dispatch
    (psiToPa mToInch : float -> float)
    (float_pow : float -> float -> result float) (np_tan : float -> float)
    (i : Inputs) :
  let shaftStress :=
    observe "_shaftStress"
      (calculate psiToPa mToInch float_pow np_tan (fresh i)) in
  ((_dH i =? 0) = true ->
   shaftStress = solidShaftStress float_pow (_t i) (_dRe i)
   /\ (forall dRe3, float_pow (_dRe i) 3 = Return dRe3 ->
         shaftStress
         = if 3.141592653589793 * dRe3 =? 0 then Raise ZeroDivisionError
           else Return (VFloat (16 * _t i / (3.141592653589793 * dRe3))))
   /\ (forall e, float_pow (_dRe i) 3 = Raise e -> shaftStress = Raise e))
  /\ ((_dH i =? 0) = false ->
      shaftStress = hollowShaftStress float_pow (_t i) (_dRe i) (_dH i)
      /\ (forall dRe4 dH4,
            float_pow (_dRe i) 4 = Return dRe4 ->
            float_pow (_dH i) 4 = Return dH4 ->
            shaftStress
            = if 3.141592653589793 * (dRe4 - dH4) =? 0
              then Raise ZeroDivisionError
              else Return (VFloat (16 * _t i * _dRe i
                                   / (3.141592653589793 * (dRe4 - dH4)))))
      /\ (forall e,
            float_pow (_dRe i) 4 = Raise e
            \/ ((exists dRe4, float_pow (_dRe i) 4 = Return dRe4)
                /\ float_pow (_dH i) 4 = Raise e) ->
            shaftStress = Raise e)).
Proof.
  cbv zeta. rewrite shaftStress_observed.
  split; intros ->; (split; [reflexivity|]).
  - unfold solidShaftStress, pow. split.
    + intros dRe3 ->. reflexivity.
    + intros e ->. reflexivity.
  - unfold hollowShaftStress, pow. split.
    + intros dRe4 dH4 -> ->. reflexivity.
    + intros e [->|[[dRe4 ->] ->]]; reflexivity.
Qed.

(** A bore of exactly 0.0 takes the solid formula, a bore of 1e-9 the
    hollow one. *)
Lemma C1_witness :
  ((_dH sample_inputs =? 0) = true
   /\ Sample.float_pow 0.03 3 = Return (0.03 * 0.03 * 0.03)
   /\ observe "_shaftStress"
        (calculate Sample.psiToPa Sample.mToInch Sample.float_pow
           Sample.np_tan (fresh sample_inputs))
      = Return (VFloat (16 * 100
                        / (3.141592653589793 * (0.03 * 0.03 * 0.03)))))
  /\ ((_dH (with_dH sample_inputs 1e-9) =? 0) = false
      /\ observe "_shaftStress"
           (calculate Sample.psiToPa Sample.mToInch Sample.float_pow
              Sample.np_tan (fresh (with_dH sample_inputs 1e-9)))
         = hollowShaftStress Sample.float_pow 100 0.03 1e-9).
Proof.
  split.
  - split; [reflexivity|split; [reflexivity|]].
    destruct (C1_shaft_stress_dispatch Sample.psiToPa Sample.mToInch
                Sample.float_pow Sample.np_tan sample_inputs) as [Hs _].
    destruct (Hs eq_refl) as (_ & Hf & _).
    exact (Hf (0.03 * 0.03 * 0.03) eq_refl).
  - split; [reflexivity|].
    destruct (C1_shaft_stress_dispatch Sample.psiToPa Sample.mToInch
                Sample.float_pow Sample.np_tan
                (with_dH sample_inputs 1e-9)) as [_ Hh].
    destruct (Hh eq_refl) as (Hd & _). exact Hd.
Defined.

(* ===================================================================== *)
(** ** Factored compressive stress (C5) *)
(* ===================================================================== *)

(** C5: the spline wear life factor is the step function of the total
    revolutions over 1e4 ... 1e10 with values 4.0, 2.8, 2.0, 1.4, 1.0,
    0.7, 0.5 (strict comparisons); whenever the pipeline assigns the
    factored compressive stress, it is compressiveStress·Ka/Lw for a
    flexible spline and compressiveStress·Ka/(9·Lf) for a rigid one, with
    the compressive stress and Ka the pipeline assigned and Lf the
    cycle-based life factor. *)
Theorem C5_factored_compressive_stress
    (psiToPa mToInch : float -> float)
    (float_pow : float -> float -> result float) (np_tan : float -> float) :
  (forall nTotal,
     getSplineWearLifeFactor nTotal
     = spec_step_function spec_wearTable VNone nTotal)
  /\ (forall (i : Inputs) (fc : value),
        computed (fst (calculate psiToPa mToInch float_pow np_tan (fresh i)))
          !! "_factoredCompStress" = Some fc ->
        exists sC kA,
          computed (fst (calculate psiToPa mToInch float_pow np_tan (fresh i)))
            !! "_compStress" = Some sC
          /\ computed (fst (calculate psiToPa mToInch float_pow np_tan
                              (fresh i)))
               !! "_appFactor" = Some kA
          /\ if _flexible i
             then (ret sC * ret kA
                   / ret (getSplineWearLifeFactor (_nTotal i)))%py
                  = Return fc
             else (ret sC * ret kA /
                   (fl 9 * fl (getLifeFactor (_nCyc i) (_reversible i))))%py
                  = Return fc).
Proof.
  split.
  - intros nTotal. unfold getSplineWearLifeFactor, spec_wearTable; simpl.
    repeat (destruct (nTotal <? _); [reflexivity|]). reflexivity.
  - apply factored_observed.
Qed.

(** The sample coupling, flexible and rigid. *)
Lemma C5_witness :
  (exists fc,
     computed (fst (calculate Sample.psiToPa Sample.mToInch Sample.float_pow
                      Sample.np_tan (fresh sample_inputs)))
       !! "_factoredCompStress" = Some fc
     /\ exists sC kA,
          computed (fst (calculate Sample.psiToPa Sample.mToInch
                           Sample.float_pow Sample.np_tan
                           (fresh sample_inputs)))
            !! "_compStress" = Some sC
          /\ computed (fst (calculate Sample.psiToPa Sample.mToInch
                              Sample.float_pow Sample.np_tan
                              (fresh sample_inputs)))
               !! "_appFactor" = Some kA
          /\ (ret sC * ret kA / ret (getSplineWearLifeFactor 9999999999))%py
             = Return fc)
  /\ (exists fc,
        computed (fst (calculate Sample.psiToPa Sample.mToInch
                         Sample.float_pow Sample.np_tan
                         (fresh (with_flexible sample_inputs false))))
          !! "_factoredCompStress" = Some fc
        /\ exists sC kA,
             computed (fst (calculate Sample.psiToPa Sample.mToInch
                              Sample.float_pow Sample.np_tan
                              (fresh (with_flexible sample_inputs false))))
               !! "_compStress" = Some sC
             /\ computed (fst (calculate Sample.psiToPa Sample.mToInch
                                 Sample.float_pow Sample.np_tan
                                 (fresh (with_flexible sample_inputs false))))
                  !! "_appFactor" = Some kA
             /\ (ret sC * ret kA / (fl 9 * fl (getLifeFactor 9999 false)))%py
                = Return fc).
Proof.
  split.
  - eexists. split; [vm_compute; reflexivity|].
    apply (proj2 (C5_factored_compressive_stress Sample.psiToPa Sample.mToInch
                    Sample.float_pow Sample.np_tan) sample_inputs).
    vm_compute; reflexivity.
  - eexists. split; [vm_compute; reflexivity|].
    apply (proj2 (C5_factored_compressive_stress Sample.psiToPa Sample.mToInch
                    Sample.float_pow Sample.np_tan)
             (with_flexible sample_inputs false)).
    vm_compute; reflexivity.
Defined.

(* ===================================================================== *)
(** ** Hardness values outside the tabulated brackets (C2) *)
(* ===================================================================== *)

(** C2, as stated, fails: a Brinell hardness of 150, below the lowest
    tabulated bracket 160-200, gets the stress of that bracket
    (20000 psi) from the shear lookup, and a Rockwell C hardness of 47,
    in the gap 46-48, gets 40000 psi; neither falls through. *)
Lemma C2_counterexample :
  ~ ((forall hardness, (hardness <? 160) = true ->
        getAllowableShearStressByHardness Sample.psiToPa hardness "Brinell"
        = Return VNone)
     /\ (forall hardness,
           (46 <? hardness) = true -> (hardness <? 48) = true ->
           getAllowableShearStressByHardness Sample.psiToPa hardness
             "Rockwell C"
           = Return VNone)).
Proof.
  intros [H _]. specialize (H 150 eq_refl). vm_compute in H. discriminate H.
Qed.

Ltac below h a b H :=
  rewrite (FloatOrder.below_ltb h a b H eq_refl).
Ltac above h a b H :=
  rewrite (FloatOrder.above_not_ltb h a b H eq_refl).

(** Decide every test [h <? c] of the goal from the bounds
    [lo <= h < hi]. *)
Ltac settle h Hlo Hhi :=
  repeat match goal with
  | |- context [h <? ?c] =>
      first [ rewrite (FloatOrder.leb_not_ltb h c Hlo)
            | rewrite (FloatOrder.above_not_ltb h c _ Hlo eq_refl)
            | rewrite Hhi
            | rewrite (FloatOrder.below_ltb h _ c Hhi eq_refl) ]
  end.

(** C2, amended: the lookups test upper bounds only: each is the cascade
    over the upper bounds of its brackets.  A hardness at or above the
    top bound of its scale (Brinell 351, Rockwell C 63) falls through
    all branches and the lookup returns [None]; every hardness below the
    top bound gets the stress of one of the brackets: below the lowest
    tabulated bracket (Brinell under 160, Rockwell C under 33) that of
    the lowest bracket, and in a gap between two brackets that of the
    bracket above the gap. *)
Theorem C2_hardness_lookups_upper_bounds (psiToPa : float -> float) :
  (forall h,
     getAllowableShearStressByHardness psiToPa h "Brinell"
     = spec_hardness_lookup psiToPa
         [(200, 20000); (260, 30000); (351, 40000)] h
     /\ getAllowableShearStressByHardness psiToPa h "Rockwell C"
        = spec_hardness_lookup psiToPa
            [(38, 40000); (46, 45000); (53, 40000); (63, 50000)] h
     /\ getAllowableCompressiveStressForSplines psiToPa h "Brinell" "Straight"
        = spec_hardness_lookup psiToPa
            [(200, 1500); (260, 2000); (351, 3000)] h
     /\ getAllowableCompressiveStressForSplines psiToPa h "Brinell" "Crowned"
        = spec_hardness_lookup psiToPa
            [(200, 6000); (260, 8000); (351, 12000)] h
     /\ getAllowableCompressiveStressForSplines psiToPa h "Rockwell C"
          "Straight"
        = spec_hardness_lookup psiToPa
            [(38, 3000); (53, 4000); (63, 5000)] h
     /\ getAllowableCompressiveStressForSplines psiToPa h "Rockwell C"
          "Crowned"
        = spec_hardness_lookup psiToPa
            [(38, 12000); (53, 16000); (63, 20000)] h
     /\ getAllowableBurstingStressByHardness psiToPa h "Brinell"
        = spec_hardness_lookup psiToPa
            [(200, 22000); (260, 32000); (351, 45000)] h
     /\ getAllowableBurstingStressByHardness psiToPa h "Rockwell C"
        = spec_hardness_lookup psiToPa
            [(46, 45000); (53, 50000); (63, 55000)] h)
  /\ (forall h, (351 <=? h) = true ->
     getAllowableShearStressByHardness psiToPa h "Brinell" = Return VNone
     /\ getAllowableCompressiveStressForSplines psiToPa h "Brinell" "Straight"
        = Return VNone
     /\ getAllowableCompressiveStressForSplines psiToPa h "Brinell" "Crowned"
        = Return VNone
     /\ getAllowableBurstingStressByHardness psiToPa h "Brinell"
        = Return VNone)
  /\ (forall h, (63 <=? h) = true ->
        getAllowableShearStressByHardness psiToPa h "Rockwell C"
        = Return VNone
        /\ getAllowableCompressiveStressForSplines psiToPa h "Rockwell C"
             "Straight" = Return VNone
        /\ getAllowableCompressiveStressForSplines psiToPa h "Rockwell C"
             "Crowned" = Return VNone
        /\ getAllowableBurstingStressByHardness psiToPa h "Rockwell C"
           = Return VNone)
  /\ (forall h, (h <? 160) = true ->
        getAllowableShearStressByHardness psiToPa h "Brinell"
        = fl (psiToPa 20000)
        /\ getAllowableCompressiveStressForSplines psiToPa h "Brinell"
             "Straight" = fl (psiToPa 1500)
        /\ getAllowableCompressiveStressForSplines psiToPa h "Brinell"
             "Crowned" = fl (psiToPa 6000)
        /\ getAllowableBurstingStressByHardness psiToPa h "Brinell"
           = fl (psiToPa 22000))
  /\ (forall h, (h <? 33) = true ->
        getAllowableShearStressByHardness psiToPa h "Rockwell C"
        = fl (psiToPa 40000)
        /\ getAllowableCompressiveStressForSplines psiToPa h "Rockwell C"
             "Straight" = fl (psiToPa 3000)
        /\ getAllowableCompressiveStressForSplines psiToPa h "Rockwell C"
             "Crowned" = fl (psiToPa 12000)
        /\ getAllowableBurstingStressByHardness psiToPa h "Rockwell C"
           = fl (psiToPa 45000))
  /\ (forall h, (200 <=? h) = true -> (h <? 230) = true ->
        getAllowableShearStressByHardness psiToPa h "Brinell"
        = fl (psiToPa 30000)
        /\ getAllowableCompressiveStressForSplines psiToPa h "Brinell"
             "Straight" = fl (psiToPa 2000)
        /\ getAllowableCompressiveStressForSplines psiToPa h "Brinell"
             "Crowned" = fl (psiToPa 8000)
        /\ getAllowableBurstingStressByHardness psiToPa h "Brinell"
           = fl (psiToPa 32000))
  /\ (forall h, (260 <=? h) = true -> (h <? 302) = true ->
        getAllowableShearStressByHardness psiToPa h "Brinell"
        = fl (psiToPa 40000)
        /\ getAllowableCompressiveStressForSplines psiToPa h "Brinell"
             "Straight" = fl (psiToPa 3000)
        /\ getAllowableCompressiveStressForSplines psiToPa h "Brinell"
             "Crowned" = fl (psiToPa 12000)
        /\ getAllowableBurstingStressByHardness psiToPa h "Brinell"
           = fl (psiToPa 45000))
  /\ (forall h, (38 <=? h) = true -> (h <? 42) = true ->
        getAllowableShearStressByHardness psiToPa h "Rockwell C"
        = fl (psiToPa 45000)
        /\ getAllowableBurstingStressByHardness psiToPa h "Rockwell C"
           = fl (psiToPa 45000))
  /\ (forall h, (46 <=? h) = true -> (h <? 48) = true ->
        getAllowableShearStressByHardness psiToPa h "Rockwell C"
        = fl (psiToPa 40000)
        /\ getAllowableBurstingStressByHardness psiToPa h "Rockwell C"
           = fl (psiToPa 50000))
  /\ (forall h, (38 <=? h) = true -> (h <? 48) = true ->
        getAllowableCompressiveStressForSplines psiToPa h "Rockwell C"
          "Straight" = fl (psiToPa 4000)
        /\ getAllowableCompressiveStressForSplines psiToPa h "Rockwell C"
             "Crowned" = fl (psiToPa 16000))
  /\ (forall h, (53 <=? h) = true -> (h <? 58) = true ->
        getAllowableShearStressByHardness psiToPa h "Rockwell C"
        = fl (psiToPa 50000)
        /\ getAllowableCompressiveStressForSplines psiToPa h "Rockwell C"
             "Straight" = fl (psiToPa 5000)
        /\ getAllowableCompressiveStressForSplines psiToPa h "Rockwell C"
             "Crowned" = fl (psiToPa 20000)
        /\ getAllowableBurstingStressByHardness psiToPa h "Rockwell C"
           = fl (psiToPa 55000))
  /\ (forall h, (h <? 351) = true ->
        (exists psi, In psi [20000; 30000; 40000]
           /\ getAllowableShearStressByHardness psiToPa h "Brinell"
              = fl (psiToPa psi))
        /\ (exists psi, In psi [1500; 2000; 3000]
              /\ getAllowableCompressiveStressForSplines psiToPa h "Brinell"
                   "Straight" = fl (psiToPa psi))
        /\ (exists psi, In psi [6000; 8000; 12000]
              /\ getAllowableCompressiveStressForSplines psiToPa h "Brinell"
                   "Crowned" = fl (psiToPa psi))
        /\ (exists psi, In psi [22000; 32000; 45000]
              /\ getAllowableBurstingStressByHardness psiToPa h "Brinell"
                 = fl (psiToPa psi)))
  /\ (forall h, (h <? 63) = true ->
        (exists psi, In psi [40000; 45000; 40000; 50000]
           /\ getAllowableShearStressByHardness psiToPa h "Rockwell C"
              = fl (psiToPa psi))
        /\ (exists psi, In psi [3000; 4000; 5000]
              /\ getAllowableCompressiveStressForSplines psiToPa h
                   "Rockwell C" "Straight" = fl (psiToPa psi))
        /\ (exists psi, In psi [12000; 16000; 20000]
              /\ getAllowableCompressiveStressForSplines psiToPa h
                   "Rockwell C" "Crowned" = fl (psiToPa psi))
        /\ (exists psi, In psi [45000; 50000; 55000]
              /\ getAllowableBurstingStressByHardness psiToPa h "Rockwell C"
                 = fl (psiToPa psi))).
Proof.
  unfold getAllowableShearStressByHardness,
    getAllowableCompressiveStressForSplines,
    getAllowableBurstingStressByHardness, spec_hardness_lookup; simpl.
  split;
    [intros h; repeat apply conj; repeat (destruct (h <? _)); reflexivity|].
  repeat apply conj; intros h H.
  - above h 200 351 H. above h 260 351 H.
    rewrite (FloatOrder.leb_not_ltb _ _ H). repeat split.
  - above h 38 63 H. above h 46 63 H. above h 53 63 H.
    rewrite (FloatOrder.leb_not_ltb _ _ H). repeat split.
  - below h 160 200 H. repeat split.
  - below h 33 38 H. below h 33 46 H. repeat split.
  - intros H2. settle h H H2. repeat split.
  - intros H2. settle h H H2. repeat split.
  - intros H2. settle h H H2. repeat split.
  - intros H2. settle h H H2. repeat split.
  - intros H2. settle h H H2. repeat split.
  - intros H2. settle h H H2. repeat split.
  - rewrite H. clear H.
    repeat split; repeat (destruct (h <? _));
      (eexists; split; [|reflexivity]);
      repeat (first [left; reflexivity|right]).
  - rewrite H. clear H.
    repeat split; repeat (destruct (h <? _));
      (eexists; split; [|reflexivity]);
      repeat (first [left; reflexivity|right]).
Qed.

(** Brinell 351 falls through; Brinell 150 gets the 160-200 bracket and
    Rockwell C 47 the 48-53 bracket. *)
Lemma C2_witness :
  ((351 <=? 351) = true
   /\ getAllowableShearStressByHardness Sample.psiToPa 351 "Brinell"
      = Return VNone)
  /\ ((150 <? 160) = true
      /\ getAllowableShearStressByHardness Sample.psiToPa 150 "Brinell"
         = fl (Sample.psiToPa 20000))
  /\ ((46 <=? 47) = true /\ (47 <? 48) = true
      /\ getAllowableShearStressByHardness Sample.psiToPa 47 "Rockwell C"
         = fl (Sample.psiToPa 40000)).
Proof.
  pose proof (C2_hardness_lookups_upper_bounds Sample.psiToPa)
    as (_ & Htop & _ & Hlow & _ & _ & _ & _ & Hgap & _).
  split; [|split].
  - split; [reflexivity|]. apply (Htop 351). reflexivity.
  - split; [reflexivity|]. apply (Hlow 150). reflexivity.
  - split; [reflexivity|split; [reflexivity|]].
    apply (Hgap 47); reflexivity.
Defined.

(* ===================================================================== *)
(** ** Spline wear life factor beyond the table (C9) *)
(* ===================================================================== *)

(** C9: for [nTotal >= 1e10] [getSplineWearLifeFactor] falls through all
    branches and returns [None]; for [nTotal < 1e10] it returns one of
    the seven tabulated values.  For a flexible spline with
    [nTotal >= 1e10] the pipeline therefore never assigns the factored
    compressive stress nor the compressive safety factor: [calculate]
    raises (a [TypeError] from dividing by [None], once the wear factor
    has been assigned), and so does the constructor call. *)
Theorem C9_wear_life_factor_falls_through
    (psiToPa mToInch : float -> float)
    (float_pow : float -> float -> result float) (np_tan : float -> float) :
  (forall nTotal,
     (1e10 <=? nTotal) = true -> getSplineWearLifeFactor nTotal = VNone)
  /\ (forall nTotal,
        (nTotal <? 1e10) = true ->
        In (getSplineWearLifeFactor nTotal)
           [VFloat 4.0; VFloat 2.8; VFloat 2.0; VFloat 1.4; VFloat 1.0;
            VFloat 0.7; VFloat 0.5])
  /\ (forall i : Inputs,
        _flexible i = true ->
        (1e10 <=? _nTotal i) = true ->
        let run := calculate psiToPa mToInch float_pow np_tan (fresh i) in
        (exists e,
           snd run = Raise e
           /\ construct psiToPa mToInch float_pow np_tan i true = Raise e)
        /\ computed (fst run) !! "_factoredCompStress" = None
        /\ computed (fst run) !! "_compSafetyFactor" = None
        /\ (is_Some (computed (fst run) !! "_lifeWear") ->
            computed (fst run) !! "_lifeWear" = Some VNone
            /\ snd run = Raise TypeError)).
Proof.
  split; [|split].
  - apply wear_above.
  - apply wear_below.
  - intros i Hflex Hn run.
    destruct (wear_abort psiToPa mToInch float_pow np_tan i Hflex Hn)
      as ((e & He) & H1 & H2 & H3).
    split; [|split; [exact H1|split; [exact H2|exact H3]]].
    exists e. split; [exact He|]. now apply construct_Raise.
Qed.

(** The sample coupling run for exactly 1e10 revolutions. *)
Lemma C9_witness :
  ((1e10 <=? 1e10) = true /\ getSplineWearLifeFactor 1e10 = VNone)
  /\ ((9999999999 <? 1e10) = true
      /\ In (getSplineWearLifeFactor 9999999999)
           [VFloat 4.0; VFloat 2.8; VFloat 2.0; VFloat 1.4; VFloat 1.0;
            VFloat 0.7; VFloat 0.5])
  /\ (_flexible (with_nTotal sample_inputs 1e10) = true
      /\ (1e10 <=? _nTotal (with_nTotal sample_inputs 1e10)) = true
      /\ construct Sample.psiToPa Sample.mToInch Sample.float_pow
           Sample.np_tan (with_nTotal sample_inputs 1e10) true
         = Raise TypeError).
Proof.
  pose proof (C9_wear_life_factor_falls_through Sample.psiToPa Sample.mToInch
                Sample.float_pow Sample.np_tan) as (Ha & Hb & Hp).
  split; [|split].
  - split; [reflexivity|]. apply (Ha 1e10). reflexivity.
  - split; [reflexivity|]. apply (Hb 9999999999). reflexivity.
  - split; [reflexivity|split; [reflexivity|]].
    destruct (Hp (with_nTotal sample_inputs 1e10) eq_refl eq_refl)
      as ((e & He & Hc) & _ & _ & Hr).
    rewrite Hc. f_equal.
    destruct (Hr ltac:(vm_compute; eexists; reflexivity)) as [_ Hs].
    rewrite He in Hs. now injection Hs.
Defined.

(* ===================================================================== *)
(** ** Determinism of the pipeline (C10) *)
(* ===================================================================== *)

(** C10: for every fixed input set, running the pipeline twice gives the
    results of running it once: a second [calculate] leaves every
    attribute and the outcome as the first left them.  Every attribute
    the pipeline assigns, and its outcome, is a function of the stored
    inputs alone: on an object that already carries attributes, the run
    assigns what the run on a fresh object assigns, over the old ones. *)
Theorem C10_calculate_deterministic
    (psiToPa mToInch : float -> float)
    (float_pow : float -> float -> result float) (np_tan : float -> float)
    (i : Inputs) (d0 : attrs) :
  let calc := calculate psiToPa mToInch float_pow np_tan in
  let self := {| stored := i; computed := d0 |} in
  calc (fst (calc self)) = calc self
  /\ snd (calc self) = snd (calc (fresh i))
  /\ computed (fst (calc self)) = computed (fst (calc (fresh i))) ∪ d0
  /\ stored (fst (calc self)) = i.
Proof.
  intros calc self. subst calc self.
  split; [apply calculate_twice|].
  unfold calculate, fresh. cbn [stored computed].
  rewrite (calculate_body_frame psiToPa mToInch float_pow np_tan i d0).
  destruct (calculate_body psiToPa mToInch float_pow np_tan i ∅) as [w r].
  repeat split.
Qed.

(* ===================================================================== *)
(** ** List indexing and the application factor table *)
(* ===================================================================== *)

Lemma getitem_out {A : Type} (l : list A) (i : Z) :
  (i < - Z.of_nat (length l) \/ Z.of_nat (length l) <= i)%Z ->
  getitem l i = Raise IndexError.
Proof.
  intros H. unfold getitem. cbv zeta.
  destruct (Z.ltb_spec i 0) as [Hneg|Hpos].
  - destruct (Z.ltb_spec (i + Z.of_nat (length l)) 0) as [_|Hge];
      [reflexivity|lia].
  - destruct (Z.ltb_spec i 0) as [?|_]; [lia|].
    rewrite (proj2 (lookup_ge_None l (Z.to_nat i))) by lia. reflexivity.
Qed.

Lemma getitem_in {A : Type} (l : list A) (i : Z) :
  (- Z.of_nat (length l) <= i < Z.of_nat (length l))%Z ->
  exists x,
    getitem l i = Return x
    /\ l !! Z.to_nat (i mod Z.of_nat (length l)) = Some x.
Proof.
  intros H. unfold getitem. cbv zeta.
  destruct (Z.ltb_spec i 0) as [Hneg|Hpos].
  - destruct (Z.ltb_spec (i + Z.of_nat (length l)) 0) as [?|Hge]; [lia|].
    replace (i mod Z.of_nat (length l))%Z with (i + Z.of_nat (length l))%Z.
    + destruct (lookup_lt_is_Some_2 l (Z.to_nat (i + Z.of_nat (length l))))
        as [x Hx]; [lia|].
      exists x. now rewrite Hx.
    + apply Z.mod_unique with (q := (-1)%Z); lia.
  - destruct (Z.ltb_spec i 0) as [?|_]; [lia|].
    rewrite Z.mod_small by lia.
    destruct (lookup_lt_is_Some_2 l (Z.to_nat i)) as [x Hx]; [lia|].
    exists x. now rewrite Hx.
Qed.

(** X1: [getSplineApplicationFactor] raises [IndexError] exactly when
    the supply index is outside -3..2 or the load index outside -4..3,
    and raises nothing else; inside, it returns a factor between 1.0 and
    2.8. *)
Theorem X1_application_factor_index_range (supplyShockType loadShockType : Z) :
  (getSplineApplicationFactor supplyShockType loadShockType = Raise IndexError
   <-> ~ ((-3 <= supplyShockType < 3)%Z /\ (-4 <= loadShockType < 4)%Z))
  /\ (forall e,
        getSplineApplicationFactor supplyShockType loadShockType = Raise e ->
        e = IndexError)
  /\ (forall v,
        getSplineApplicationFactor supplyShockType loadShockType = Return v ->
        exists k, v = VFloat k /\ (1 <=? k) = true /\ (k <=? 2.8) = true).
Proof.
  destruct (Z_lt_ge_dec supplyShockType (-3)) as [H1|H1];
    [|destruct (Z_lt_ge_dec supplyShockType 3) as [H2|H2]].
  1, 3: unfold getSplineApplicationFactor;
    rewrite (getitem_out kTable supplyShockType) by (simpl; lia); simpl;
    (split; [split; [intros _; lia|reflexivity]|]);
    (split; [now intros e [= <-]|discriminate]).
  destruct (Z_lt_ge_dec loadShockType (-4)) as [H3|H3];
    [|destruct (Z_lt_ge_dec loadShockType 4) as [H4|H4]].
  1, 3: unfold getSplineApplicationFactor;
    destruct (getitem_in kTable supplyShockType) as (row & -> & Hrow);
      [simpl; lia|];
    assert (length row = 4%nat) as Hlen
      by (destruct (Z.to_nat _) as [|[|[|]]] in Hrow;
          simpl in Hrow; simplify_eq; reflexivity);
    cbn [bind];
    rewrite (getitem_out row loadShockType) by (rewrite Hlen; lia); simpl;
    (split; [split; [intros _; lia|reflexivity]|]);
    (split; [now intros e [= <-]|discriminate]).
  assert (supplyShockType = -3 \/ supplyShockType = -2 \/ supplyShockType = -1
          \/ supplyShockType = 0 \/ supplyShockType = 1
          \/ supplyShockType = 2)%Z as Hs by lia.
  assert (loadShockType = -4 \/ loadShockType = -3 \/ loadShockType = -2
          \/ loadShockType = -1 \/ loadShockType = 0 \/ loadShockType = 1
          \/ loadShockType = 2 \/ loadShockType = 3)%Z as Hl by lia.
  clear H1 H2 H3 H4.
  repeat (destruct Hs as [->|Hs]); try subst supplyShockType;
    repeat (destruct Hl as [->|Hl]); try subst loadShockType;
    (split; [split; [discriminate|intros H; exfalso; apply H; lia]|]);
    (split; [discriminate|]);
    intros v [= <-]; eexists; repeat split; reflexivity.
Qed.

Lemma X1_witness :
  getSplineApplicationFactor 3 0 = Raise IndexError
  /\ IndexError = IndexError.
Proof.
  split; [reflexivity|].
  apply (proj1 (proj2 (X1_application_factor_index_range 3 0)) IndexError).
  reflexivity.
Defined.

(** X2: a negative shock index counts from the end of its table row:
    inside the ranges, the factor at (s, l) is the one at
    (s mod 3, l mod 4), and for natural indices it is the table entry. *)
Theorem X2_application_factor_negative_index (supplyShockType loadShockType : Z) :
  (-3 <= supplyShockType < 3)%Z -> (-4 <= loadShockType < 4)%Z ->
  getSplineApplicationFactor supplyShockType loadShockType
  = getSplineApplicationFactor (supplyShockType mod 3) (loadShockType mod 4)
  /\ exists row k,
       kTable !! Z.to_nat (supplyShockType mod 3) = Some row
       /\ row !! Z.to_nat (loadShockType mod 4) = Some k
       /\ getSplineApplicationFactor supplyShockType loadShockType
          = Return (VFloat k).
Proof.
  intros Hs Hl.
  assert (supplyShockType = -3 \/ supplyShockType = -2 \/ supplyShockType = -1
          \/ supplyShockType = 0 \/ supplyShockType = 1
          \/ supplyShockType = 2)%Z as Hs' by lia.
  assert (loadShockType = -4 \/ loadShockType = -3 \/ loadShockType = -2
          \/ loadShockType = -1 \/ loadShockType = 0 \/ loadShockType = 1
          \/ loadShockType = 2 \/ loadShockType = 3)%Z as Hl' by lia.
  clear Hs Hl.
  repeat (destruct Hs' as [->|Hs']); try subst supplyShockType;
    repeat (destruct Hl' as [->|Hl']); try subst loadShockType;
    (split; [reflexivity|]); do 2 eexists; repeat split; reflexivity.
Qed.

Lemma X2_witness :
  (-3 <= -1 < 3)%Z /\ (-4 <= -4 < 4)%Z
  /\ getSplineApplicationFactor (-1) (-4) = getSplineApplicationFactor 2 0.
Proof.
  split; [lia|split; [lia|]].
  apply (proj1 (X2_application_factor_negative_index (-1) (-4)
                  ltac:(lia) ltac:(lia))).
Defined.

(* ===================================================================== *)
(** ** The three hardness lookups, side by side *)
(* ===================================================================== *)

Section LookupsTogether.

Variable psiToPa : float -> float.

Lemma shear_None (h : float) (hType : string) :
  getAllowableShearStressByHardness psiToPa h hType = Return VNone
  <-> (hType = "Brinell" /\ (h <? 351) = false)
      \/ (hType = "Rockwell C" /\ (h <? 63) = false).
Proof.
  unfold getAllowableShearStressByHardness, fl.
  destruct (String.eqb_spec hType "Brinell") as [->|Hb]; simpl.
  - destruct (h <? 351) eqn:H351.
    + split; [|intros [[_ [=]]|[[=] _]]].
      now repeat (destruct (h <? _)).
    + destruct (h <? 200) eqn:H200;
        [now rewrite (FloatOrder.below_ltb h 200 351 H200 eq_refl) in H351|].
      destruct (h <? 260) eqn:H260;
        [now rewrite (FloatOrder.below_ltb h 260 351 H260 eq_refl) in H351|].
      split; [left; now split|reflexivity].
  - destruct (String.eqb_spec hType "Rockwell C") as [->|Hr]; simpl.
    + destruct (h <? 63) eqn:H63.
      * split; [|intros [[[=] _]|[_ [=]]]].
        now repeat (destruct (h <? _)).
      * destruct (h <? 38) eqn:H38;
          [now rewrite (FloatOrder.below_ltb h 38 63 H38 eq_refl) in H63|].
        destruct (h <? 46) eqn:H46;
          [now rewrite (FloatOrder.below_ltb h 46 63 H46 eq_refl) in H63|].
        destruct (h <? 53) eqn:H53;
          [now rewrite (FloatOrder.below_ltb h 53 63 H53 eq_refl) in H63|].
        split; [right; now split|reflexivity].
    + split; [discriminate|]. intros [[? _]|[? _]]; contradiction.
Qed.

Lemma burst_None (h : float) (hType : string) :
  getAllowableBurstingStressByHardness psiToPa h hType = Return VNone
  <-> (hType = "Brinell" /\ (h <? 351) = false)
      \/ (hType = "Rockwell C" /\ (h <? 63) = false).
Proof.
  unfold getAllowableBurstingStressByHardness, fl.
  destruct (String.eqb_spec hType "Brinell") as [->|Hb]; simpl.
  - destruct (h <? 351) eqn:H351.
    + split; [|intros [[_ [=]]|[[=] _]]].
      now repeat (destruct (h <? _)).
    + destruct (h <? 200) eqn:H200;
        [now rewrite (FloatOrder.below_ltb h 200 351 H200 eq_refl) in H351|].
      destruct (h <? 260) eqn:H260;
        [now rewrite (FloatOrder.below_ltb h 260 351 H260 eq_refl) in H351|].
      split; [left; now split|reflexivity].
  - destruct (String.eqb_spec hType "Rockwell C") as [->|Hr]; simpl.
    + destruct (h <? 63) eqn:H63.
      * split; [|intros [[[=] _]|[_ [=]]]].
        now repeat (destruct (h <? _)).
      * destruct (h <? 46) eqn:H46;
          [now rewrite (FloatOrder.below_ltb h 46 63 H46 eq_refl) in H63|].
        destruct (h <? 53) eqn:H53;
          [now rewrite (FloatOrder.below_ltb h 53 63 H53 eq_refl) in H63|].
        split; [right; now split|reflexivity].
    + split; [discriminate|]. intros [[? _]|[? _]]; contradiction.
Qed.

Lemma comp_None (h : float) (hType toothEnd : string) :
  toothEnd = "Straight" \/ toothEnd = "Crowned" ->
  getAllowableCompressiveStressForSplines psiToPa h hType toothEnd
  = Return VNone
  <-> (hType = "Brinell" /\ (h <? 351) = false)
      \/ (hType = "Rockwell C" /\ (h <? 63) = false).
Proof.
  intros Hte. unfold getAllowableCompressiveStressForSplines, fl.
  assert (negb (String.eqb toothEnd "Straight" || String.eqb toothEnd "Crowned")
          = false) as -> by (destruct Hte as [->| ->]; reflexivity).
  destruct (String.eqb_spec hType "Brinell") as [->|Hb]; simpl.
  - destruct (h <? 351) eqn:H351.
    + split; [|intros [[_ [=]]|[[=] _]]].
      now repeat (destruct (h <? _)); destruct (String.eqb toothEnd _).
    + destruct (h <? 200) eqn:H200;
        [now rewrite (FloatOrder.below_ltb h 200 351 H200 eq_refl) in H351|].
      destruct (h <? 260) eqn:H260;
        [now rewrite (FloatOrder.below_ltb h 260 351 H260 eq_refl) in H351|].
      split; [left; now split|reflexivity].
  - destruct (String.eqb_spec hType "Rockwell C") as [->|Hr]; simpl.
    + destruct (h <? 63) eqn:H63.
      * split; [|intros [[[=] _]|[_ [=]]]].
        now repeat (destruct (h <? _)); destruct (String.eqb toothEnd _).
      * destruct (h <? 38) eqn:H38;
          [now rewrite (FloatOrder.below_ltb h 38 63 H38 eq_refl) in H63|].
        destruct (h <? 53) eqn:H53;
          [now rewrite (FloatOrder.below_ltb h 53 63 H53 eq_refl) in H63|].
        split; [right; now split|reflexivity].
    + split; [discriminate|]. intros [[? _]|[? _]]; contradiction.
Qed.

(** Whatever a lookup returns that is not [None] is a Python float. *)
Lemma shear_Return (h : float) (hType : string) (v : value) :
  getAllowableShearStressByHardness psiToPa h hType = Return v ->
  v = VNone \/ exists p, v = VFloat (psiToPa p).
Proof.
  unfold getAllowableShearStressByHardness, fl.
  repeat (destruct (String.eqb hType _)); repeat (destruct (h <? _));
    intros [= <-]; eauto.
Qed.

Lemma burst_Return (h : float) (hType : string) (v : value) :
  getAllowableBurstingStressByHardness psiToPa h hType = Return v ->
  v = VNone \/ exists p, v = VFloat (psiToPa p).
Proof.
  unfold getAllowableBurstingStressByHardness, fl.
  repeat (destruct (String.eqb hType _)); repeat (destruct (h <? _));
    intros [= <-]; eauto.
Qed.

Lemma comp_Return (h : float) (hType toothEnd : string) (v : value) :
  getAllowableCompressiveStressForSplines psiToPa h hType toothEnd = Return v ->
  v = VNone \/ exists p, v = VFloat (psiToPa p).
Proof.
  unfold getAllowableCompressiveStressForSplines, fl.
  destruct (negb _); [discriminate|].
  repeat (destruct (String.eqb _ _)); repeat (destruct (h <? _));
    intros [= <-]; eauto.
Qed.

End LookupsTogether.

(** X3: the shear, compressive and bursting lookups fall through on the
    same inputs: each returns [None] exactly for a Brinell hardness not
    below 351 or a Rockwell C hardness not below 63 (the tooth end being
    a recognised one), so a hardness that gets a shear stress gets the
    other two as well. *)
Theorem X3_lookups_fall_through_together
    (psiToPa : float -> float) (h : float) (hType toothEnd : string) :
  toothEnd = "Straight" \/ toothEnd = "Crowned" ->
  let none :=
    (hType = "Brinell" /\ (h <? 351) = false)
    \/ (hType = "Rockwell C" /\ (h <? 63) = false) in
  (getAllowableShearStressByHardness psiToPa h hType = Return VNone <-> none)
  /\ (getAllowableCompressiveStressForSplines psiToPa h hType toothEnd
      = Return VNone <-> none)
  /\ (getAllowableBurstingStressByHardness psiToPa h hType = Return VNone
      <-> none).
Proof.
  intros Hte none. subst none.
  split; [apply shear_None|split; [now apply comp_None|apply burst_None]].
Qed.

Lemma X3_witness :
  ("Crowned" = "Straight" \/ "Crowned" = "Crowned")
  /\ (getAllowableCompressiveStressForSplines Sample.psiToPa 63 "Rockwell C"
        "Crowned" = Return VNone
      <-> ("Rockwell C" = "Brinell" /\ (63 <? 351) = false)
          \/ ("Rockwell C" = "Rockwell C" /\ (63 <? 63) = false)).
Proof.
  split; [now right|].
  apply (proj1 (proj2 (X3_lookups_fall_through_together Sample.psiToPa 63
                         "Rockwell C" "Crowned" (or_intror eq_refl)))).
Defined.

(** X4: in every bracket of the compressive table the crowned tooth end
    is allowed four times the pounds per square inch of the straight one:
    for every hardness and type, either both lookups return [None], or
    both raise the hardness-type exception, or they convert [p] and
    [4 * p]. *)
Theorem X4_crowned_is_four_times_straight
    (psiToPa : float -> float) (h : float) (hType : string) :
  let straight :=
    getAllowableCompressiveStressForSplines psiToPa h hType "Straight" in
  let crowned :=
    getAllowableCompressiveStressForSplines psiToPa h hType "Crowned" in
  (straight = Return VNone /\ crowned = Return VNone)
  \/ (straight = Raise UnrecognisedHardnessTypeException
      /\ crowned = Raise UnrecognisedHardnessTypeException)
  \/ (exists p, straight = fl (psiToPa p) /\ crowned = fl (psiToPa (4 * p))).
Proof.
  unfold getAllowableCompressiveStressForSplines; simpl.
  repeat (destruct (String.eqb hType _)); repeat (destruct (h <? _));
    first [ left; split; reflexivity
          | right; left; split; reflexivity
          | right; right; eexists; split; reflexivity ].
Qed.

(** X5: the compressive lookup tests the tooth end before the hardness
    type: it raises the hardness-type exception exactly when the tooth
    end is recognised and the hardness type is not, and with both
    unrecognised it raises the tooth-end exception. *)
Theorem X5_compressive_lookup_exception_order
    (psiToPa : float -> float) (h : float) (hType toothEnd : string) :
  (getAllowableCompressiveStressForSplines psiToPa h hType toothEnd
   = Raise UnrecognisedHardnessTypeException
   <-> (toothEnd = "Straight" \/ toothEnd = "Crowned")
       /\ hType <> "Brinell" /\ hType <> "Rockwell C")
  /\ (forall e,
        getAllowableCompressiveStressForSplines psiToPa h hType toothEnd
        = Raise e ->
        e = UnrecognisedToothEndException
        \/ e = UnrecognisedHardnessTypeException).
Proof.
  unfold getAllowableCompressiveStressForSplines, fl.
  destruct (String.eqb_spec toothEnd "Straight") as [Hs|Hs];
    destruct (String.eqb_spec toothEnd "Crowned") as [Hc|Hc];
    destruct (String.eqb_spec hType "Brinell") as [Hb|Hb];
    destruct (String.eqb_spec hType "Rockwell C") as [Hr|Hr];
    simpl; repeat (destruct (h <? _));
    (split; [split; [try discriminate; intros _
                    |try reflexivity; intros (Ht & ? & ?);
                     try contradiction; try (destruct Ht; contradiction)]
            |intros e; try discriminate; intros [= <-]; auto]);
    try (repeat split; auto; fail).
Qed.

Lemma X5_witness :
  getAllowableCompressiveStressForSplines Sample.psiToPa 180 "Vickers" "Round"
  = Raise UnrecognisedToothEndException
  /\ (UnrecognisedToothEndException = UnrecognisedToothEndException
      \/ UnrecognisedToothEndException = UnrecognisedHardnessTypeException).
Proof.
  split; [reflexivity|].
  apply (proj2 (X5_compressive_lookup_exception_order Sample.psiToPa 180
                  "Vickers" "Round") UnrecognisedToothEndException).
  reflexivity.
Defined.

(* ===================================================================== *)
(** ** Load-distribution factor: rows and columns that are reached *)
(* ===================================================================== *)

(** X6: the load-distribution factor is always one of 1.0, 1.5, 2.0,
    2.5, 3.0, and the top breakpoint of each axis decides nothing: every
    misalignment at or above 0.004 gets the factor of 0.008, and every
    face width at or above 50.8e-3 the factor of 101e-3. *)
Theorem X6_load_distribution_rows (relativeMisalignment fE : float) :
  (exists k,
     getLoadDistributionFactorSpline relativeMisalignment fE
     = Return (VFloat k)
     /\ In k [1; 1.5; 2; 2.5; 3])
  /\ ((0.004 <=? relativeMisalignment) = true ->
      getLoadDistributionFactorSpline relativeMisalignment fE
      = getLoadDistributionFactorSpline 0.008 fE)
  /\ ((50.8e-3 <=? fE) = true ->
      getLoadDistributionFactorSpline relativeMisalignment fE
      = getLoadDistributionFactorSpline relativeMisalignment 101e-3).
Proof.
  unfold getLoadDistributionFactorSpline, misalignmentBounds, faceWidthBounds.
  split; [|split].
  - cbn [bracket].
    repeat (destruct (relativeMisalignment <? _));
      repeat (destruct (fE <? _));
      eexists; (split; [reflexivity|]); simpl; auto 8.
  - intros H.
    replace (bracket 0.008 [0.001; 0.002; 0.004; 0.008] 0) with 4%Z
      by reflexivity.
    cbn [bracket].
    rewrite (FloatOrder.above_not_ltb _ 0.001 0.004 H eq_refl).
    rewrite (FloatOrder.above_not_ltb _ 0.002 0.004 H eq_refl).
    rewrite (FloatOrder.leb_not_ltb _ _ H).
    now destruct (relativeMisalignment <? 0.008).
  - intros H.
    replace (bracket 101e-3 [12.7e-3; 25.4e-3; 50.8e-3; 101e-3] 0) with 4%Z
      by reflexivity.
    cbn [bracket].
    rewrite (FloatOrder.above_not_ltb _ 12.7e-3 50.8e-3 H eq_refl).
    rewrite (FloatOrder.above_not_ltb _ 25.4e-3 50.8e-3 H eq_refl).
    rewrite (FloatOrder.leb_not_ltb _ _ H).
    now destruct (fE <? 101e-3).
Qed.

Lemma X6_witness :
  ((0.004 <=? 0.005) = true
   /\ getLoadDistributionFactorSpline 0.005 0.03
      = getLoadDistributionFactorSpline 0.008 0.03)
  /\ ((50.8e-3 <=? 0.06) = true
      /\ getLoadDistributionFactorSpline 0.0005 0.06
         = getLoadDistributionFactorSpline 0.0005 101e-3).
Proof.
  split; (split; [reflexivity|]).
  - apply (proj1 (proj2 (X6_load_distribution_rows 0.005 0.03))). reflexivity.
  - apply (proj2 (proj2 (X6_load_distribution_rows 0.0005 0.06))). reflexivity.
Defined.

(* ===================================================================== *)
(** ** What each method returns and raises *)
(* ===================================================================== *)

Lemma lifeFactor_nonzero (nCyc : float) (reversible : bool) :
  (getLifeFactor nCyc reversible =? 0) = false.
Proof.
  unfold getLifeFactor.
  repeat (destruct (nCyc <? _)); destruct reversible; reflexivity.
Qed.

Lemma wear_shape (nCyc : float) :
  getSplineWearLifeFactor nCyc = VNone /\ (nCyc <? 1e10) = false
  \/ exists w, getSplineWearLifeFactor nCyc = VFloat w /\ (w =? 0) = false.
Proof.
  unfold getSplineWearLifeFactor.
  destruct (nCyc <? 1e4) eqn:H4; [right; eexists; split; reflexivity|].
  destruct (nCyc <? 1e5) eqn:H5; [right; eexists; split; reflexivity|].
  destruct (nCyc <? 1e6) eqn:H6; [right; eexists; split; reflexivity|].
  destruct (nCyc <? 1e7) eqn:H7; [right; eexists; split; reflexivity|].
  destruct (nCyc <? 1e8) eqn:H8; [right; eexists; split; reflexivity|].
  destruct (nCyc <? 1e9) eqn:H9; [right; eexists; split; reflexivity|].
  destruct (nCyc <? 1e10) eqn:H10; [right; eexists; split; reflexivity|].
  left; split; reflexivity.
Qed.

Lemma appFactor_Return (s l : Z) (v : value) :
  getSplineApplicationFactor s l = Return v -> exists k, v = VFloat k.
Proof.
  unfold getSplineApplicationFactor.
  destruct (getitem kTable s) as [row|e]; [|discriminate]. cbn [bind].
  destruct (getitem row l) as [k|e]; [|discriminate]. cbn [bind].
  intros [= <-]. now exists k.
Qed.

Lemma getitem_Raise {A : Type} (l : list A) (i : Z) (e : exn) :
  getitem l i = Raise e -> e = IndexError.
Proof.
  unfold getitem. cbv zeta.
  destruct (_ <? 0)%Z; [now intros [= <-]|].
  destruct (l !! _); [discriminate|now intros [= <-]].
Qed.

Lemma appFactor_Raise (s l : Z) (e : exn) :
  getSplineApplicationFactor s l = Raise e -> e = IndexError.
Proof.
  unfold getSplineApplicationFactor.
  destruct (getitem kTable s) as [row|e'] eqn:E1; cbn [bind].
  - destruct (getitem row l) as [k|e''] eqn:E2; cbn [bind]; [discriminate|].
    intros [= <-]. eapply getitem_Raise, E2.
  - intros [= <-]. eapply getitem_Raise, E1.
Qed.

Lemma loadFactor_Return (rm fE : float) :
  exists k, getLoadDistributionFactorSpline rm fE = Return (VFloat k).
Proof.
  unfold getLoadDistributionFactorSpline, misalignmentBounds, faceWidthBounds.
  cbn [bracket].
  repeat (destruct (rm <? _)); repeat (destruct (fE <? _));
    eexists; reflexivity.
Qed.

Section MethodShapes.

Variable psiToPa : float -> float.
Variable mToInch : float -> float.
Variable float_pow : float -> float -> result float.
Variable np_tan : float -> float.

Local Abbreviation pow_raises := (pow_raises float_pow).

Lemma shaft_Return (t dRe dH : float) (v : value) :
  (if dH =? 0 then solidShaftStress float_pow t dRe
   else hollowShaftStress float_pow t dRe dH) = Return v ->
  exists x, v = VFloat x.
Proof.
  unfold solidShaftStress, hollowShaftStress, pow, fl.
  destruct (dH =? 0).
  - destruct (float_pow dRe 3); simpl; [|discriminate].
    destruct (_ =? 0); intros [= <-]; eauto.
  - destruct (float_pow dRe 4); simpl; [|discriminate].
    destruct (float_pow dH 4); simpl; [|discriminate].
    destruct (_ =? 0); intros [= <-]; eauto.
Qed.

Lemma shaft_Raise (t dRe dH : float) (e : exn) :
  (if dH =? 0 then solidShaftStress float_pow t dRe
   else hollowShaftStress float_pow t dRe dH) = Raise e ->
  e = ZeroDivisionError \/ pow_raises e.
Proof.
  unfold solidShaftStress, hollowShaftStress, pow, fl, pow_raises.
  destruct (dH =? 0).
  - destruct (float_pow dRe 3) eqn:E; simpl;
      [|intros [= <-]; right; eauto].
    destruct (_ =? 0); intros [= <-]; auto.
  - destruct (float_pow dRe 4) eqn:E; simpl;
      [|intros [= <-]; right; eauto].
    destruct (float_pow dH 4) eqn:E'; simpl;
      [|intros [= <-]; right; eauto].
    destruct (_ =? 0); intros [= <-]; auto.
Qed.

Lemma shear_Raise (h : float) (hType : string) (e : exn) :
  getAllowableShearStressByHardness psiToPa h hType = Raise e ->
  e = UnrecognisedHardnessTypeException
  /\ hType <> "Brinell" /\ hType <> "Rockwell C".
Proof.
  unfold getAllowableShearStressByHardness, fl.
  destruct (String.eqb_spec hType "Brinell");
    destruct (String.eqb_spec hType "Rockwell C");
    repeat (destruct (h <? _)); intros [= <-]; auto.
Qed.

Lemma burst_Raise (h : float) (hType : string) (e : exn) :
  getAllowableBurstingStressByHardness psiToPa h hType = Raise e ->
  e = UnrecognisedHardnessTypeException
  /\ hType <> "Brinell" /\ hType <> "Rockwell C".
Proof.
  unfold getAllowableBurstingStressByHardness, fl.
  destruct (String.eqb_spec hType "Brinell");
    destruct (String.eqb_spec hType "Rockwell C");
    repeat (destruct (h <? _)); intros [= <-]; auto.
Qed.

Lemma comp_Raise (h : float) (hType toothEnd : string) (e : exn) :
  getAllowableCompressiveStressForSplines psiToPa h hType toothEnd = Raise e ->
  (e = UnrecognisedToothEndException
   /\ toothEnd <> "Straight" /\ toothEnd <> "Crowned")
  \/ (e = UnrecognisedHardnessTypeException
      /\ hType <> "Brinell" /\ hType <> "Rockwell C").
Proof.
  unfold getAllowableCompressiveStressForSplines, fl.
  destruct (String.eqb_spec toothEnd "Straight");
    destruct (String.eqb_spec toothEnd "Crowned"); simpl;
    destruct (String.eqb_spec hType "Brinell");
    destruct (String.eqb_spec hType "Rockwell C");
    repeat (destruct (h <? _)); intros [= <-]; auto.
Qed.

Lemma centrifugal_Return (n dOi dRi : float) (v : value) :
  getBurstingCentrifugalStress psiToPa mToInch float_pow n dOi dRi = Return v ->
  exists x, v = VFloat x.
Proof.
  unfold getBurstingCentrifugalStress, convert, pow, fl.
  destruct (float_pow n 2); simpl; [|discriminate].
  destruct (float_pow (mToInch dOi) 2); simpl; [|discriminate].
  destruct (float_pow (mToInch dRi) 2); simpl; [|discriminate].
  intros [= <-]. eauto.
Qed.

Lemma centrifugal_Raise (n dOi dRi : float) (e : exn) :
  getBurstingCentrifugalStress psiToPa mToInch float_pow n dOi dRi = Raise e ->
  pow_raises e.
Proof.
  unfold getBurstingCentrifugalStress, convert, pow, fl, pow_raises.
  destruct (float_pow n 2) eqn:E1; simpl; [|intros [= <-]; eauto].
  destruct (float_pow (mToInch dOi) 2) eqn:E2; simpl;
    [|intros [= <-]; eauto].
  destruct (float_pow (mToInch dRi) 2) eqn:E3; simpl;
    [|intros [= <-]; eauto].
  discriminate.
Qed.

Lemma tensile_Return (t d fE y : float) (v : value) :
  getBurstingTensileStress float_pow t d fE y = Return v ->
  exists x, v = VFloat x.
Proof.
  unfold getBurstingTensileStress, pow, fl.
  destruct (float_pow d 2); simpl; [|discriminate].
  destruct (_ =? 0); intros [= <-]; eauto.
Qed.

Lemma tensile_Raise (t d fE y : float) (e : exn) :
  getBurstingTensileStress float_pow t d fE y = Raise e ->
  e = ZeroDivisionError \/ pow_raises e.
Proof.
  unfold getBurstingTensileStress, pow, fl, pow_raises.
  destruct (float_pow d 2) eqn:E; simpl; [|intros [= <-]; right; eauto].
  destruct (_ =? 0); intros [= <-]; auto.
Qed.

Lemma radial_Return (t phi d tW f : float) :
  exists x, getBurstingRadialStress np_tan t phi d tW f = Return (VNp x).
Proof. eexists. reflexivity. Qed.

End MethodShapes.

(* ===================================================================== *)
(** ** The let-form is the run of [calculate] *)
(* ===================================================================== *)

Section LetFormCorrect.

Variable psiToPa : float -> float.
Variable mToInch : float -> float.
Variable float_pow : float -> float -> result float.
Variable np_tan : float -> float.

Local Abbreviation calc := (calculate psiToPa mToInch float_pow np_tan).
Local Abbreviation nf := (calculate_nf psiToPa mToInch float_pow np_tan).

Lemma calculate_nf_correct (i : Inputs) :
  calc (fresh i) =
  ({| stored := i; computed := inserts (fst (nf i)) ∅ |}, snd (nf i)).
Proof.
  unfold calculate, fresh, calculate_body, calculate_nf, calculate_nf_tail,
    nf_step.
  cbn [stored computed].
  change (@empty attrs _) with (inserts [] (@empty attrs _)).
  destruct (_flexible i).
  all: repeat (progress exec_step; try (case_rhs; [|reflexivity])).
  all: reflexivity.
Qed.

Lemma lookup_nf (i : Inputs) (name : string) :
  computed (fst (calc (fresh i))) !! name = assoc (fst (nf i)) name.
Proof.
  rewrite calculate_nf_correct. cbn [fst computed].
  rewrite lookup_inserts, lookup_empty. now destruct (assoc _ _).
Qed.

Lemma outcome_nf (i : Inputs) : snd (calc (fresh i)) = snd (nf i).
Proof. now rewrite calculate_nf_correct. Qed.

End LetFormCorrect.

(* ===================================================================== *)
(** ** Running the pipeline with the shapes of the values known *)
(* ===================================================================== *)

(** Evaluate an arithmetic method on operands of known shape. *)
Ltac arith_hyp E :=
  cbv beta iota delta
    [maximumShaftStress getShaftSafetyFactor getTeethShearStress
     getCompressiveStress getAllowableCompressiveStress
     getTotalBurstingStress getBurstingSafetyFactor getBurstingRadialStress
     py_mul py_div py_add py_sub binop arith truediv ret fl] in E;
  rewrite ?lifeFactor_nonzero in E;
  repeat match type of E with
         | context [if ?c then _ else _] => destruct c eqn:?
         end;
  simplify_eq.

(** Replace the outcome of each method call by what the method can
    return or raise. *)
Ltac shape_hyps :=
  repeat match goal with
  | E : (if _ =? 0 then solidShaftStress _ _ _
         else hollowShaftStress _ _ _ _) = Return ?v |- _ =>
      is_var v; apply shaft_Return in E as [? ->]
  | E : (if _ =? 0 then solidShaftStress _ _ _
         else hollowShaftStress _ _ _ _) = Raise ?e |- _ =>
      is_var e; apply shaft_Raise in E as [->|E]
  | E : getSplineApplicationFactor _ _ = Return ?v |- _ =>
      is_var v; destruct (appFactor_Return _ _ _ E) as [? ->]
  | E : getSplineApplicationFactor _ _ = Raise ?e |- _ =>
      is_var e; pose proof (appFactor_Raise _ _ _ E) as ->
  | E : getAllowableShearStressByHardness _ _ _ = Return ?v |- _ =>
      is_var v; destruct (shear_Return _ _ _ _ E) as [->|[? ->]]
  | E : getAllowableShearStressByHardness _ _ _ = Raise ?e |- _ =>
      is_var e; destruct (shear_Raise _ _ _ _ E) as [-> ?]
  | E : getAllowableBurstingStressByHardness _ _ _ = Return ?v |- _ =>
      is_var v; destruct (burst_Return _ _ _ _ E) as [->|[? ->]]
  | E : getAllowableBurstingStressByHardness _ _ _ = Raise ?e |- _ =>
      is_var e; destruct (burst_Raise _ _ _ _ E) as [-> ?]
  | E : getAllowableCompressiveStressForSplines _ _ _ _ = Return ?v |- _ =>
      is_var v; destruct (comp_Return _ _ _ _ _ E) as [->|[? ->]]
  | E : getAllowableCompressiveStressForSplines _ _ _ _ = Raise ?e |- _ =>
      is_var e; destruct (comp_Raise _ _ _ _ _ E) as [[-> ?]|[-> ?]]
  | E : getLoadDistributionFactorSpline ?rm ?fE = _ |- _ =>
      let k := fresh "k" in let Hk := fresh "Hk" in
      destruct (loadFactor_Return rm fE) as [k Hk];
      rewrite Hk in E; clear Hk; simplify_eq
  | E : getBurstingCentrifugalStress _ _ _ _ _ _ = Return ?v |- _ =>
      is_var v; apply centrifugal_Return in E as [? ->]
  | E : getBurstingCentrifugalStress _ _ _ _ _ _ = Raise ?e |- _ =>
      is_var e; apply centrifugal_Raise in E
  | E : getBurstingTensileStress _ _ _ _ _ = Return ?v |- _ =>
      is_var v; apply tensile_Return in E as [? ->]
  | E : getBurstingTensileStress _ _ _ _ _ = Raise ?e |- _ =>
      is_var e; apply tensile_Raise in E as [->|E]
  | E : maximumShaftStress _ _ _ = _ |- _ => arith_hyp E
  | E : getShaftSafetyFactor _ _ = _ |- _ => arith_hyp E
  | E : getTeethShearStress _ _ _ _ _ _ = _ |- _ => arith_hyp E
  | E : getCompressiveStress _ _ _ _ _ _ = _ |- _ => arith_hyp E
  | E : getAllowableCompressiveStress _ _ _ _ = _ |- _ => arith_hyp E
  | E : getTotalBurstingStress _ _ _ _ _ = _ |- _ => arith_hyp E
  | E : getBurstingSafetyFactor _ _ _ = _ |- _ => arith_hyp E
  | E : getBurstingRadialStress _ _ _ _ _ _ = _ |- _ => arith_hyp E
  | E : py_div _ _ = _ |- _ => arith_hyp E
  end.

(** Turn the goal into a property [Q] of the let-form of the run. *)
Ltac nf_init :=
  match goal with
  | |- context [calculate_nf ?a ?b ?c ?d ?i] =>
      pattern (calculate_nf a b c d i)
  end;
  match goal with
  | |- ?P _ => let Q := fresh "Q" in set (Q := P)
  end;
  unfold calculate_nf, calculate_nf_tail, nf_step; cbv beta zeta.

(** Run the let-form to each of its ends. *)
Ltac nf_run :=
  repeat (case_rhs; cbv beta iota zeta; shape_hyps);
  match goal with
  | Q := _ |- _ => subst Q
  end;
  cbv beta iota zeta;
  cbn [fst snd assoc String.eqb Ascii.eqb Bool.eqb].

Section PipelineOutcomes.

Variable psiToPa : float -> float.
Variable mToInch : float -> float.
Variable float_pow : float -> float -> result float.
Variable np_tan : float -> float.

Local Abbreviation calc := (calculate psiToPa mToInch float_pow np_tan).
Local Abbreviation nf := (calculate_nf psiToPa mToInch float_pow np_tan).

Lemma comp_None_inv (h : float) (hType toothEnd : string) :
  getAllowableCompressiveStressForSplines psiToPa h hType toothEnd
  = Return VNone ->
  falls_through h hType.
Proof.
  intros E. refine (proj1 (comp_None psiToPa h hType toothEnd _) E).
  unfold getAllowableCompressiveStressForSplines in E.
  destruct (String.eqb_spec toothEnd "Straight"); [now left|].
  destruct (String.eqb_spec toothEnd "Crowned"); [now right|].
  discriminate.
Qed.

Lemma appFactor_out (s l : Z) (e : exn) :
  getSplineApplicationFactor s l = Raise e -> ~ shock_in_range s l.
Proof.
  intros E [Hs Hl]. unfold getSplineApplicationFactor in E.
  destruct (getitem_in kTable s) as (row & Hrow & Hlook); [simpl; lia|].
  rewrite Hrow in E. cbn [bind] in E.
  assert (length row = 4%nat) as Hlen
    by (destruct (Z.to_nat _) as [|[|[|]]] in Hlook;
        simpl in Hlook; simplify_eq; reflexivity).
  destruct (getitem_in row l) as (k & Hk & _); [rewrite Hlen; lia|].
  rewrite Hk in E. discriminate.
Qed.

Lemma appFactor_in (s l : Z) (v : value) :
  getSplineApplicationFactor s l = Return v -> shock_in_range s l.
Proof.
  intros E. unfold getSplineApplicationFactor in E.
  destruct (Z_lt_ge_dec s (-3)) as [H1|H1];
    [rewrite (getitem_out kTable s) in E by (simpl; lia); discriminate|].
  destruct (Z_lt_ge_dec s 3) as [H2|H2];
    [|rewrite (getitem_out kTable s) in E by (simpl; lia); discriminate].
  destruct (getitem_in kTable s) as (row & Hrow & Hlook); [simpl; lia|].
  rewrite Hrow in E. cbn [bind] in E.
  assert (length row = 4%nat) as Hlen
    by (destruct (Z.to_nat _) as [|[|[|]]] in Hlook;
        simpl in Hlook; simplify_eq; reflexivity).
  destruct (Z_lt_ge_dec l (-4)) as [H3|H3];
    [rewrite (getitem_out row l) in E by (rewrite Hlen; lia); discriminate|].
  destruct (Z_lt_ge_dec l 4) as [H4|H4];
    [|rewrite (getitem_out row l) in E by (rewrite Hlen; lia); discriminate].
  split; lia.
Qed.

Lemma shear_recognised (h : float) (hType : string) (v : value) :
  getAllowableShearStressByHardness psiToPa h hType = Return v ->
  hType = "Brinell" \/ hType = "Rockwell C".
Proof.
  unfold getAllowableShearStressByHardness.
  destruct (String.eqb_spec hType "Brinell"); [now left|].
  destruct (String.eqb_spec hType "Rockwell C"); [now right|].
  discriminate.
Qed.

(** The attribute holds a Python float, or a numpy scalar, in the list
    of assignments. *)
Local Abbreviation is_float l name := (exists x, assoc l name = Some (VFloat x)).
Local Abbreviation is_np l name := (exists x, assoc l name = Some (VNp x)).

(** The facts about the let-form that the properties below are read
    from. *)
Lemma run_facts (i : Inputs) :
  let l := fst (nf i) in
  let r := snd (nf i) in
  (forall e, r = Raise e ->
     (In e [ZeroDivisionError; TypeError; IndexError;
            UnrecognisedHardnessTypeException; UnrecognisedToothEndException]
      \/ pow_raises float_pow e)
     /\ (e = TypeError -> ~ pow_raises float_pow TypeError ->
         falls_through (_hardness i) (_hType i)
         \/ (_flexible i = true /\ (_nTotal i <? 1e10) = false))
     /\ (e = IndexError -> ~ pow_raises float_pow IndexError ->
         ~ shock_in_range (_supplyShockType i) (_loadShockType i)))
  /\ (r = Return tt ->
      is_float l "_shaftStress" /\ is_float l "_appFactor"
      /\ is_float l "_splineLF" /\ is_float l "_allowShaftStress"
      /\ is_float l "_maxShaftStress"
      /\ is_float l "_shaftSafetyFactor"
      /\ is_float l "_teethLoadkM" /\ is_float l "_teethShearStress"
      /\ is_float l "_maxTeethShearStress"
      /\ is_float l "_teethSafetyFactor" /\ is_float l "_compStress"
      /\ is_float l "_allowCompStress"
      /\ is_float l "_factoredCompStress"
      /\ is_float l "_compSafetyFactor" /\ is_np l "_burstRad"
      /\ is_float l "_burstCentrifugal" /\ is_float l "_burstTens"
      /\ is_np l "_burstTotal" /\ is_float l "_allowBurstStress"
      /\ is_np l "_burstSafetyFactor"
      /\ (if _flexible i then is_float l "_lifeWear"
          else assoc l "_lifeWear" = None))
  /\ (is_Some (assoc l "_burstTens") -> r = Return tt)
  /\ (falls_through (_hardness i) (_hType i) ->
      (exists e, r = Raise e)
      /\ assoc l "_shaftSafetyFactor" = None
      /\ (is_Some (assoc l "_maxShaftStress") -> r = Raise TypeError))
  /\ (~ shock_in_range (_supplyShockType i) (_loadShockType i) ->
      (exists e, r = Raise e)
      /\ assoc l "_appFactor" = None
      /\ (is_Some (assoc l "_shaftStress") -> r = Raise IndexError))
  /\ ((_d i * _z i * _fE i * _tC i =? 0) = true ->
      (exists e, r = Raise e)
      /\ assoc l "_teethShearStress" = None
      /\ (is_Some (assoc l "_teethLoadkM") -> r = Raise ZeroDivisionError)).
Proof.
  cbv zeta. nf_init.
  destruct (_flexible i);
    [destruct (wear_shape (_nTotal i)) as [[-> Hlt]|(w & -> & Hw)]|].
  all: nf_run.
  all: repeat match goal with
       | E : getAllowableShearStressByHardness _ _ _ = Return VNone |- _ =>
           apply shear_None in E
       | E : getAllowableBurstingStressByHardness _ _ _ = Return VNone |- _ =>
           apply burst_None in E
       | E : getAllowableCompressiveStressForSplines _ _ _ _
             = Return VNone |- _ =>
           apply comp_None_inv in E
       | E : getAllowableShearStressByHardness _ ?h ?t
             = Return (VFloat _) |- _ =>
           assert (~ falls_through h t)
             by (intros Hft; apply (shear_None psiToPa) in Hft;
                 rewrite Hft in E; discriminate);
           apply shear_recognised in E
       | E : getAllowableBurstingStressByHardness _ ?h ?t
             = Return (VFloat _) |- _ => clear E
       | E : getAllowableCompressiveStressForSplines _ _ _ _
             = Return (VFloat _) |- _ => clear E
       | E : getSplineApplicationFactor _ _ = Raise _ |- _ =>
           apply appFactor_out in E
       | E : getSplineApplicationFactor _ _ = Return _ |- _ =>
           apply appFactor_in in E
       end.
  all: fold (falls_through (_hardness i) (_hType i)) in *.
  (* a lookup that raised after another returned *)
  all: try (exfalso;
            match goal with
            | H1 : ?t <> "Brinell" /\ ?t <> "Rockwell C",
              H3 : ?t = "Brinell" \/ ?t = "Rockwell C" |- _ =>
                destruct H1, H3; contradiction
            | H1 : ?t <> "Brinell" /\ ?t <> "Rockwell C",
              H3 : falls_through _ ?t |- _ =>
                destruct H1, H3 as [[? _]|[? _]]; contradiction
            end).
  all: (split; [|split; [|split; [|split; [|split]]]]).
  (* the five facts, at each end of the run *)
  all: try (intros ? He; first
    [ discriminate He
    | injection He as <-;
      (split; [first [right; assumption|simpl; auto 10]|]);
      split; intros Heq; try discriminate Heq; subst; intros Hn;
      first [contradiction|tauto] ]).
  all: try (intros Hr; first
    [ discriminate Hr
    | repeat split; try (eexists; reflexivity) ]; fail).
  all: try (first [intros _; reflexivity|intros [? [=]]]; fail).
  all: try (intros Hft; first
    [ contradiction
    | match goal with
      | H : _ <> "Brinell" /\ _ <> "Rockwell C" |- _ =>
          destruct H, Hft as [[? _]|[? _]]; contradiction
      end
    | congruence
    | split; [eexists; reflexivity
             |split; [reflexivity
                     |first [intros _; reflexivity|intros [? [=]]]]] ]; fail).
Qed.

End PipelineOutcomes.

(* ===================================================================== *)
(** ** How a run of [calculate] can end *)
(* ===================================================================== *)

(** The outcome of [calculate] does not depend on the attributes the
    object already carries. *)
Lemma outcome_fresh psiToPa mToInch float_pow np_tan
    (self : DudleyMethodSpline) :
  snd (calculate psiToPa mToInch float_pow np_tan self)
  = snd (calculate psiToPa mToInch float_pow np_tan (fresh (stored self))).
Proof.
  destruct self as [i d0]. unfold calculate, fresh. cbn [stored computed].
  rewrite (calculate_body_frame psiToPa mToInch float_pow np_tan i d0).
  now destruct (calculate_body psiToPa mToInch float_pow np_tan i ∅).
Qed.

Lemma sample_pow_raises (e : exn) :
  pow_raises Sample.float_pow e -> e = OverflowError.
Proof.
  intros (x & y & H). unfold Sample.float_pow in H.
  repeat (destruct (y =? _); [discriminate|]). now injection H.
Qed.

(** X7: whatever attributes the object already carries, [calculate]
    raises nothing but [ZeroDivisionError], [TypeError], [IndexError],
    the two exceptions of the module, and what [**] raises; in
    particular it never reads an attribute it has not assigned. *)
Theorem X7_calculate_exception_classes
    (psiToPa mToInch : float -> float)
    (float_pow : float -> float -> result float) (np_tan : float -> float)
    (self : DudleyMethodSpline) (e : exn) :
  snd (calculate psiToPa mToInch float_pow np_tan self) = Raise e ->
  (In e [ZeroDivisionError; TypeError; IndexError;
         UnrecognisedHardnessTypeException; UnrecognisedToothEndException]
   \/ pow_raises float_pow e)
  /\ (~ pow_raises float_pow AttributeError -> e <> AttributeError).
Proof.
  rewrite outcome_fresh, outcome_nf. intros He.
  destruct (run_facts psiToPa mToInch float_pow np_tan (stored self))
    as (H & _).
  destruct (H e He) as (Hc & _). split; [exact Hc|].
  intros Hn ->. destruct Hc as [Hin|Hp]; [|contradiction].
  simpl in Hin. intuition discriminate.
Qed.

Lemma X7_witness :
  snd (calculate Sample.psiToPa Sample.mToInch Sample.float_pow Sample.np_tan
         (fresh (with_hType sample_inputs "Vickers")))
  = Raise UnrecognisedHardnessTypeException
  /\ (In UnrecognisedHardnessTypeException
        [ZeroDivisionError; TypeError; IndexError;
         UnrecognisedHardnessTypeException; UnrecognisedToothEndException]
      \/ pow_raises Sample.float_pow UnrecognisedHardnessTypeException).
Proof.
  split; [vm_compute; reflexivity|].
  apply (X7_calculate_exception_classes Sample.psiToPa Sample.mToInch
           Sample.float_pow Sample.np_tan
           (fresh (with_hType sample_inputs "Vickers"))).
  vm_compute; reflexivity.
Defined.

(** X8: when [calculate] returns on a fresh object, all twenty result
    attributes are assigned and none holds [None]: the three bursting
    attributes that involve [np.tan] hold numpy scalars, the others
    Python floats; [_lifeWear] is assigned exactly for a flexible
    spline. *)
Theorem X8_returned_run_assigns_numbers
    (psiToPa mToInch : float -> float)
    (float_pow : float -> float -> result float) (np_tan : float -> float)
    (i : Inputs) :
  let run := calculate psiToPa mToInch float_pow np_tan (fresh i) in
  let d := computed (fst run) in
  snd run = Return tt ->
  Forall (holds_float d)
    ["_shaftStress"; "_appFactor"; "_splineLF"; "_allowShaftStress";
     "_maxShaftStress"; "_shaftSafetyFactor"; "_teethLoadkM";
     "_teethShearStress"; "_maxTeethShearStress"; "_teethSafetyFactor";
     "_compStress"; "_allowCompStress"; "_factoredCompStress";
     "_compSafetyFactor"; "_burstCentrifugal"; "_burstTens";
     "_allowBurstStress"]
  /\ Forall (holds_np d) ["_burstRad"; "_burstTotal"; "_burstSafetyFactor"]
  /\ (if _flexible i then holds_float d "_lifeWear"
      else d !! "_lifeWear" = None).
Proof.
  intros run d. subst run d. unfold holds_float, holds_np.
  rewrite outcome_nf. intros Hr.
  destruct (run_facts psiToPa mToInch float_pow np_tan i) as (_ & H & _).
  specialize (H Hr).
  repeat rewrite Forall_cons. rewrite !Forall_nil.
  rewrite !lookup_nf.
  destruct (_flexible i); tauto.
Qed.

Lemma X8_witness :
  snd (calculate Sample.psiToPa Sample.mToInch Sample.float_pow Sample.np_tan
         (fresh sample_inputs)) = Return tt
  /\ Forall (holds_np
               (computed (fst (calculate Sample.psiToPa Sample.mToInch
                                 Sample.float_pow Sample.np_tan
                                 (fresh sample_inputs)))))
       ["_burstRad"; "_burstTotal"; "_burstSafetyFactor"].
Proof.
  split; [vm_compute; reflexivity|].
  apply (X8_returned_run_assigns_numbers Sample.psiToPa Sample.mToInch
           Sample.float_pow Sample.np_tan sample_inputs).
  vm_compute; reflexivity.
Defined.

(** X9: a [TypeError] from [calculate] always comes from a lookup that
    fell through: if [**] raises no [TypeError], the hardness is not
    below the top bound of its scale, or the spline is flexible and the
    total revolutions are not below 1e10. *)
Theorem X9_type_error_means_fall_through
    (psiToPa mToInch : float -> float)
    (float_pow : float -> float -> result float) (np_tan : float -> float)
    (i : Inputs) :
  snd (calculate psiToPa mToInch float_pow np_tan (fresh i)) = Raise TypeError ->
  ~ pow_raises float_pow TypeError ->
  falls_through (_hardness i) (_hType i)
  \/ (_flexible i = true /\ (_nTotal i <? 1e10) = false).
Proof.
  rewrite outcome_nf. intros He Hn.
  destruct (run_facts psiToPa mToInch float_pow np_tan i) as (H & _).
  destruct (H _ He) as (_ & Ht & _). now apply Ht.
Qed.

Lemma X9_witness :
  snd (calculate Sample.psiToPa Sample.mToInch Sample.float_pow Sample.np_tan
         (fresh (with_nTotal sample_inputs 1e10))) = Raise TypeError
  /\ ~ pow_raises Sample.float_pow TypeError
  /\ (falls_through 60 "Rockwell C"
      \/ (true = true /\ (1e10 <? 1e10) = false)).
Proof.
  assert (~ pow_raises Sample.float_pow TypeError) as Hn
    by (intros H; apply sample_pow_raises in H; discriminate).
  split; [vm_compute; reflexivity|split; [exact Hn|]].
  apply (X9_type_error_means_fall_through Sample.psiToPa Sample.mToInch
           Sample.float_pow Sample.np_tan (with_nTotal sample_inputs 1e10));
    [vm_compute; reflexivity|exact Hn].
Defined.

(** X10: a hardness not below the top bound of its scale (Brinell 351,
    Rockwell C 63) makes every run fail: [calculate] and the constructor
    call raise, the shaft safety factor is never assigned, and once the
    maximum shaft stress has been assigned the exception is the
    [TypeError] of dividing [None]. *)
Theorem X10_hardness_fall_through_aborts
    (psiToPa mToInch : float -> float)
    (float_pow : float -> float -> result float) (np_tan : float -> float)
    (i : Inputs) :
  falls_through (_hardness i) (_hType i) ->
  let run := calculate psiToPa mToInch float_pow np_tan (fresh i) in
  (exists e,
     snd run = Raise e
     /\ construct psiToPa mToInch float_pow np_tan i true = Raise e)
  /\ computed (fst run) !! "_shaftSafetyFactor" = None
  /\ (is_Some (computed (fst run) !! "_maxShaftStress") ->
      snd run = Raise TypeError).
Proof.
  intros Hft run. subst run.
  destruct (run_facts psiToPa mToInch float_pow np_tan i)
    as (_ & _ & _ & H & _).
  destruct (H Hft) as ((e & He) & H1 & H2).
  rewrite !lookup_nf, outcome_nf.
  split; [|split; [exact H1|exact H2]].
  exists e. split; [exact He|].
  apply construct_Raise. now rewrite outcome_nf.
Qed.

Lemma X10_witness :
  falls_through 63 "Rockwell C"
  /\ construct Sample.psiToPa Sample.mToInch Sample.float_pow Sample.np_tan
       (with_hardness sample_inputs 63) true = Raise TypeError.
Proof.
  assert (falls_through 63 "Rockwell C") as Hft by (right; now split).
  split; [exact Hft|].
  destruct (X10_hardness_fall_through_aborts Sample.psiToPa Sample.mToInch
              Sample.float_pow Sample.np_tan (with_hardness sample_inputs 63)
              Hft) as ((e & He & Hc) & _ & Hr).
  rewrite Hc. f_equal.
  pose proof (Hr ltac:(vm_compute; eexists; reflexivity)) as Hs.
  rewrite He in Hs. now injection Hs.
Defined.

(** X11: [calculate] raises [IndexError] only for shock types outside
    the table (supply outside -3..2 or load outside -4..3), and such
    shock types make every run fail: the application factor is never
    assigned, and the exception is [IndexError] once the shaft stress
    has been assigned. *)
Theorem X11_shock_types_out_of_range
    (psiToPa mToInch : float -> float)
    (float_pow : float -> float -> result float) (np_tan : float -> float)
    (i : Inputs) :
  let run := calculate psiToPa mToInch float_pow np_tan (fresh i) in
  (snd run = Raise IndexError -> ~ pow_raises float_pow IndexError ->
   ~ shock_in_range (_supplyShockType i) (_loadShockType i))
  /\ (~ shock_in_range (_supplyShockType i) (_loadShockType i) ->
      (exists e,
         snd run = Raise e
         /\ construct psiToPa mToInch float_pow np_tan i true = Raise e)
      /\ computed (fst run) !! "_appFactor" = None
      /\ (is_Some (computed (fst run) !! "_shaftStress") ->
          snd run = Raise IndexError)).
Proof.
  intros run. subst run.
  destruct (run_facts psiToPa mToInch float_pow np_tan i)
    as (Hc & _ & _ & _ & H & _).
  rewrite !lookup_nf, outcome_nf. split.
  - intros He Hn. destruct (Hc _ He) as (_ & _ & Hi). now apply Hi.
  - intros Hout. destruct (H Hout) as ((e & He) & H1 & H2).
    split; [|split; [exact H1|exact H2]].
    exists e. split; [exact He|].
    apply construct_Raise. now rewrite outcome_nf.
Qed.

Lemma X11_witness :
  ~ shock_in_range 3 0
  /\ construct Sample.psiToPa Sample.mToInch Sample.float_pow Sample.np_tan
       (with_supplyShockType sample_inputs 3) true = Raise IndexError.
Proof.
  assert (~ shock_in_range 3 0) as Hout by (intros [? _]; lia).
  split; [exact Hout|].
  destruct (proj2 (X11_shock_types_out_of_range Sample.psiToPa Sample.mToInch
                     Sample.float_pow Sample.np_tan
                     (with_supplyShockType sample_inputs 3)) Hout)
    as ((e & He & Hc) & _ & Hr).
  rewrite Hc. f_equal.
  pose proof (Hr ltac:(vm_compute; eexists; reflexivity)) as Hs.
  rewrite He in Hs. now injection Hs.
Defined.

(** X12: once the tensile bursting stress has been assigned, the run
    returns: none of the three statements that follow can raise at that
    point. *)
Theorem X12_run_returns_after_tensile_stress
    (psiToPa mToInch : float -> float)
    (float_pow : float -> float -> result float) (np_tan : float -> float)
    (i : Inputs) :
  let run := calculate psiToPa mToInch float_pow np_tan (fresh i) in
  is_Some (computed (fst run) !! "_burstTens") -> snd run = Return tt.
Proof.
  intros run. subst run. rewrite lookup_nf, outcome_nf.
  destruct (run_facts psiToPa mToInch float_pow np_tan i)
    as (_ & _ & H & _).
  exact H.
Qed.

Lemma X12_witness :
  is_Some (computed (fst (calculate Sample.psiToPa Sample.mToInch
                            Sample.float_pow Sample.np_tan
                            (fresh sample_inputs))) !! "_burstTens")
  /\ snd (calculate Sample.psiToPa Sample.mToInch Sample.float_pow
            Sample.np_tan (fresh sample_inputs)) = Return tt.
Proof.
  assert (is_Some (computed (fst (calculate Sample.psiToPa Sample.mToInch
                            Sample.float_pow Sample.np_tan
                            (fresh sample_inputs))) !! "_burstTens")) as Hs
    by (vm_compute; eexists; reflexivity).
  split; [exact Hs|].
  exact (X12_run_returns_after_tensile_stress Sample.psiToPa Sample.mToInch
           Sample.float_pow Sample.np_tan sample_inputs Hs).
Defined.

(** X13: when the product D·z·Fe·tc compares equal to zero (no teeth, no
    face width, ...), every run fails: the teeth shear stress is never
    assigned, and once the load-distribution factor has been assigned
    the exception is [ZeroDivisionError]. *)
Theorem X13_zero_tooth_geometry
    (psiToPa mToInch : float -> float)
    (float_pow : float -> float -> result float) (np_tan : float -> float)
    (i : Inputs) :
  (_d i * _z i * _fE i * _tC i =? 0) = true ->
  let run := calculate psiToPa mToInch float_pow np_tan (fresh i) in
  (exists e,
     snd run = Raise e
     /\ construct psiToPa mToInch float_pow np_tan i true = Raise e)
  /\ computed (fst run) !! "_teethShearStress" = None
  /\ (is_Some (computed (fst run) !! "_teethLoadkM") ->
      snd run = Raise ZeroDivisionError).
Proof.
  intros Hz run. subst run.
  destruct (run_facts psiToPa mToInch float_pow np_tan i)
    as (_ & _ & _ & _ & _ & H).
  destruct (H Hz) as ((e & He) & H1 & H2).
  rewrite !lookup_nf, outcome_nf.
  split; [|split; [exact H1|exact H2]].
  exists e. split; [exact He|].
  apply construct_Raise. now rewrite outcome_nf.
Qed.

Lemma X13_witness :
  (_d (with_z sample_inputs 0) * _z (with_z sample_inputs 0)
   * _fE (with_z sample_inputs 0) * _tC (with_z sample_inputs 0) =? 0) = true
  /\ construct Sample.psiToPa Sample.mToInch Sample.float_pow Sample.np_tan
       (with_z sample_inputs 0) true = Raise ZeroDivisionError.
Proof.
  split; [reflexivity|].
  destruct (X13_zero_tooth_geometry Sample.psiToPa Sample.mToInch
              Sample.float_pow Sample.np_tan (with_z sample_inputs 0)
              eq_refl) as ((e & He & Hc) & _ & Hr).
  rewrite Hc. f_equal.
  pose proof (Hr ltac:(vm_compute; eexists; reflexivity)) as Hs.
  rewrite He in Hs. now injection Hs.
Defined.

(* ===================================================================== *)
(** ** Scaling by the life factors, and the shaft-stress denominators *)
(* ===================================================================== *)

Lemma nine_lifeFactor_nonzero (nCyc : float) (reversible : bool) :
  (9 * getLifeFactor nCyc reversible =? 0) = false.
Proof.
  unfold getLifeFactor.
  repeat (destruct (nCyc <? _)); destruct reversible; reflexivity.
Qed.

(** X14: the life factors are never zero, so the scalings by them
    return on Python floats: the maximum stress is s·Ka/Lf, the rigid
    factored stress s·Ka/(9·Lf), and the flexible one s·Ka/Lw for every
    wear factor the lookup returns as a float. *)
Theorem X14_life_factor_scalings_return
    (s kA nCyc nTotal : float) (reversible : bool) :
  let lF := getLifeFactor nCyc reversible in
  maximumShaftStress (VFloat s) (VFloat kA) (VFloat lF)
  = Return (VFloat (s * kA / lF))
  /\ getAllowableCompressiveStress (VFloat s) (VFloat kA) (VFloat lF) false
     = Return (VFloat (s * kA / (9 * lF)))
  /\ (forall lW, getSplineWearLifeFactor nTotal = VFloat lW ->
        getAllowableCompressiveStress (VFloat s) (VFloat kA) (VFloat lW) true
        = Return (VFloat (s * kA / lW))).
Proof.
  intros lF. subst lF.
  unfold maximumShaftStress, getAllowableCompressiveStress; simpl.
  rewrite lifeFactor_nonzero, nine_lifeFactor_nonzero.
  repeat split. intros lW HlW.
  destruct (wear_shape nTotal) as [[Hn _]|(w & Hw & Hw0)];
    [congruence|].
  rewrite Hw in HlW. injection HlW as <-. now rewrite Hw0.
Qed.

Lemma X14_witness :
  getSplineWearLifeFactor 5000 = VFloat 4
  /\ getAllowableCompressiveStress (VFloat 3e8) (VFloat 1.5) (VFloat 4) true
     = Return (VFloat (3e8 * 1.5 / 4)).
Proof.
  split; [reflexivity|].
  apply (X14_life_factor_scalings_return 3e8 1.5 1e6 5000 true).
  reflexivity.
Defined.






(* ===================================================================== *)
(** ** The report *)
(* ===================================================================== *)

Section ReportFacts.

Variable psiToPa : float -> float.
Variable mToInch : float -> float.
Variable float_pow : float -> float -> result float.
Variable np_tan : float -> float.
Variable fmt : value -> string.

Local Abbreviation calc := (calculate psiToPa mToInch float_pow np_tan).

Lemma piece_text_returns (d : attrs) (p : piece) :
  (forall name, piece_name p = Some name ->
     holds_float d name \/ holds_np d name) ->
  exists text, piece_text fmt d p = Return text.
Proof.
  intros H. destruct p as [text|b name a|b name a]; simpl.
  - now eexists.
  - destruct (H name eq_refl) as [[x Hx]|[x Hx]];
      unfold attr; rewrite Hx; simpl; now eexists.
  - destruct (H name eq_refl) as [[x Hx]|[x Hx]];
      unfold attr; rewrite Hx; simpl; now eexists.
Qed.

Lemma append_pieces_returns (d : attrs) (ps : list piece) :
  (forall p name, In p ps -> piece_name p = Some name ->
     holds_float d name \/ holds_np d name) ->
  forall outStr, exists text, append_pieces fmt d ps outStr = Return text.
Proof.
  induction ps as [|p ps IH]; intros H outStr; simpl.
  - now eexists.
  - destruct (piece_text_returns d p) as [text Ht].
    { intros name. apply H. now left. }
    rewrite Ht. simpl. apply IH. intros q name Hq. apply H. now right.
Qed.

Lemma returned_fresh_numbers (i : Inputs) :
  snd (calc (fresh i)) = Return tt ->
  forall p name, In p report_pieces -> piece_name p = Some name ->
    holds_float (computed (fst (calc (fresh i)))) name
    \/ holds_np (computed (fst (calc (fresh i)))) name.
Proof.
  rewrite outcome_nf. intros Hr.
  destruct (run_facts psiToPa mToInch float_pow np_tan i) as (_ & H & _).
  specialize (H Hr).
  intros p name Hin Hn. unfold holds_float, holds_np. rewrite lookup_nf.
  unfold report_pieces in Hin. simpl in Hin.
  repeat (destruct Hin as [<-|Hin];
          [simpl in Hn; first [discriminate Hn | injection Hn as <-; tauto]|]).
  destruct Hin.
Qed.

Lemma computed_frame (self : DudleyMethodSpline) :
  computed (fst (calc self))
  = computed (fst (calc (fresh (stored self)))) ∪ computed self.
Proof.
  destruct self as [i d0]. unfold calculate, fresh. cbn [stored computed].
  rewrite (calculate_body_frame psiToPa mToInch float_pow np_tan i d0).
  now destruct (calculate_body psiToPa mToInch float_pow np_tan i ∅).
Qed.

Lemma returned_run_numbers (self : DudleyMethodSpline) :
  snd (calc self) = Return tt ->
  forall p name, In p report_pieces -> piece_name p = Some name ->
    holds_float (computed (fst (calc self))) name
    \/ holds_np (computed (fst (calc self))) name.
Proof.
  rewrite outcome_fresh, computed_frame. intros Hr p name Hin Hn.
  unfold holds_float, holds_np.
  destruct (returned_fresh_numbers (stored self) Hr p name Hin Hn)
    as [[x Hx]|[x Hx]]; [left|right]; exists x;
    now apply lookup_union_Some_l.
Qed.

(** The report returns exactly when [calculate] returns, and otherwise
    raises what [calculate] raised. *)
Lemma report_outcome (self : DudleyMethodSpline) :
  let run := calc self in
  let report := __repr__ psiToPa mToInch float_pow np_tan fmt self in
  fst report = fst run
  /\ (forall e, snd report = Raise e <-> snd run = Raise e)
  /\ ((exists text, snd report = Return text) <-> snd run = Return tt).
Proof.
  intros run report. subst run report. unfold __repr__.
  pose proof (returned_run_numbers self) as Hn.
  destruct (calculate psiToPa mToInch float_pow np_tan self)
    as [self' [[]|e]]; cbn [fst snd] in *.
  - destruct (append_pieces_returns (computed self') report_pieces
                (Hn eq_refl) "") as [text Ht].
    rewrite Ht. cbn [bind].
    repeat split.
    + destruct (computed self' !! "_lifeWear"); discriminate.
    + discriminate.
    + destruct (computed self' !! "_lifeWear"); now eexists.
  - split; [reflexivity|split].
    + intros e'. split; intros [= ->]; reflexivity.
    + split; [intros [text H]; discriminate H|discriminate].
Qed.

End ReportFacts.

(** X16: [__str__] (and so [__repr__] and printing) returns a report
    exactly when [calculate] returns on the object, and otherwise raises
    the exception [calculate] raised: no formatting step fails after a
    run that returned, whatever attributes the object carried before.
    The object is left as [calculate] leaves it. *)
Theorem X16_report_follows_calculate
    (psiToPa mToInch : float -> float)
    (float_pow : float -> float -> result float) (np_tan : float -> float)
    (fmt : value -> string) (self : DudleyMethodSpline) :
  let run := calculate psiToPa mToInch float_pow np_tan self in
  let report := __str__ psiToPa mToInch float_pow np_tan fmt self in
  fst report = fst run
  /\ (forall e, snd report = Raise e <-> snd run = Raise e)
  /\ ((exists text, snd report = Return text) <-> snd run = Return tt).
Proof.
  unfold __str__. apply report_outcome.
Qed.

Lemma X16_witness :
  snd (calculate Sample.psiToPa Sample.mToInch Sample.float_pow Sample.np_tan
         (fresh (with_nTotal sample_inputs 1e10))) = Raise TypeError
  /\ snd (__str__ Sample.psiToPa Sample.mToInch Sample.float_pow
            Sample.np_tan sample_fmt (fresh (with_nTotal sample_inputs 1e10)))
     = Raise TypeError.
Proof.
  assert (snd (calculate Sample.psiToPa Sample.mToInch Sample.float_pow
                 Sample.np_tan (fresh (with_nTotal sample_inputs 1e10)))
          = Raise TypeError) as H by (vm_compute; reflexivity).
  split; [exact H|].
  apply (X16_report_follows_calculate Sample.psiToPa Sample.mToInch
           Sample.float_pow Sample.np_tan sample_fmt
           (fresh (with_nTotal sample_inputs 1e10))).
  exact H.
Defined.

(** X17: an object the calculating constructor returned prints: on it
    [__str__] returns a report and leaves the object unchanged, as the
    entry panel relies on when it logs [str(dms)]. *)
Theorem X17_constructed_object_prints
    (psiToPa mToInch : float -> float)
    (float_pow : float -> float -> result float) (np_tan : float -> float)
    (fmt : value -> string) (i : Inputs) (self : DudleyMethodSpline) :
  construct psiToPa mToInch float_pow np_tan i true = Return self ->
  let report := __str__ psiToPa mToInch float_pow np_tan fmt self in
  (exists text, snd report = Return text) /\ fst report = self.
Proof.
  unfold construct.
  rewrite (init_autoCalc psiToPa mToInch float_pow np_tan).
  destruct (calculate psiToPa mToInch float_pow np_tan (fresh i))
    as [self' [[]|e]] eqn:Hc; [|discriminate].
  intros [= <-]. cbv zeta. unfold __str__.
  destruct (report_outcome psiToPa mToInch float_pow np_tan fmt self')
    as (Hfst & _ & Hret).
  assert (calculate psiToPa mToInch float_pow np_tan self'
          = (self', Return tt)) as Hagain.
  { pose proof (calculate_twice psiToPa mToInch float_pow np_tan (fresh i))
      as Htw. now rewrite Hc in Htw. }
  rewrite Hagain in Hfst, Hret. cbn [fst snd] in Hfst, Hret.
  split; [now apply Hret|exact Hfst].
Qed.

Lemma X17_witness :
  exists self,
    construct Sample.psiToPa Sample.mToInch Sample.float_pow Sample.np_tan
      sample_inputs true = Return self
    /\ fst (__str__ Sample.psiToPa Sample.mToInch Sample.float_pow
              Sample.np_tan sample_fmt self) = self.
Proof.
  destruct (construct Sample.psiToPa Sample.mToInch Sample.float_pow
              Sample.np_tan sample_inputs true) as [self|e] eqn:Hc;
    [|vm_compute in Hc; discriminate Hc].
  exists self. split; [reflexivity|].
  apply (X17_constructed_object_prints Sample.psiToPa Sample.mToInch
           Sample.float_pow Sample.np_tan sample_fmt sample_inputs self Hc).
Defined.

(* ===================================================================== *)
(** ** Runs started from the entry panel *)
(* ===================================================================== *)

Section PanelFacts.

Variable psiToPa : float -> float.
Variable mToInch : float -> float.
Variable float_pow : float -> float -> result float.
Variable np_tan : float -> float.

Local Abbreviation calc := (calculate psiToPa mToInch float_pow np_tan).
Local Abbreviation nf := (calculate_nf psiToPa mToInch float_pow np_tan).
Local Abbreviation new := (construct psiToPa mToInch float_pow np_tan).

Lemma construct_Raise_inv (i : Inputs) (e : exn) :
  new i true = Raise e -> snd (calc (fresh i)) = Raise e.
Proof.
  unfold construct.
  rewrite (init_autoCalc psiToPa mToInch float_pow np_tan).
  destruct (calc (fresh i)) as [self [[]|e']]; simpl; congruence.
Qed.

(** An exception for an unrecognised name comes from a lookup that did
    not recognise it, unless [**] raised it. *)
Lemma unrecognised_facts (i : Inputs) :
  let r := snd (nf i) in
  (r = Raise UnrecognisedHardnessTypeException ->
   ~ pow_raises float_pow UnrecognisedHardnessTypeException ->
   _hType i <> "Brinell" /\ _hType i <> "Rockwell C")
  /\ (r = Raise UnrecognisedToothEndException ->
      ~ pow_raises float_pow UnrecognisedToothEndException ->
      _toothEnd i <> "Straight" /\ _toothEnd i <> "Crowned").
Proof.
  cbv zeta. nf_init.
  destruct (_flexible i);
    [destruct (wear_shape (_nTotal i)) as [[-> Hlt]|(w & -> & Hw)]|].
  all: nf_run.
  all: split; intros He Hn; try discriminate He.
  all: try (injection He as ->); first [assumption|contradiction|tauto].
Qed.

End PanelFacts.

Lemma list_index_In (l : list string) (x : string) :
  In x l -> exists k, list_index l x = Some k /\ l !! k = Some x.
Proof.
  induction l as [|y l IH]; [intros []|]. intros Hin. simpl.
  destruct (String.eqb_spec y x) as [->|Hne].
  - now exists 0%nat.
  - destruct Hin as [->|Hin]; [contradiction|].
    destruct (IH Hin) as (k & -> & Hk). now exists (S k).
Qed.

(** X18: whatever is selected among the choices the panel offers, the
    constructor call of [calculateDudley] gets a hardness its scale's
    lookups answer and shock types inside the table; so, [**] aside, it
    raises nothing but [ZeroDivisionError], or [TypeError] for a
    flexible spline with 1e10 total revolutions or more. *)
Theorem X18_panel_selections_decode_safely
    (psiToPa mToInch : float -> float)
    (float_pow : float -> float -> result float)
    (np_tan np_deg2rad : float -> float)
    (geomData : GeomData) (torqData : TorqData) (factData : FactData)
    (nCyc nTotal : float) :
  In (materialHardness factData) DMSEntryPanel._hardness ->
  In (powerSource factData) DMSEntryPanel._powerSources ->
  In (loadType factData) DMSEntryPanel._loadTypes ->
  In (toothProfile factData) DMSEntryPanel._toothProf ->
  exists i,
    calculateDudley_inputs np_deg2rad geomData torqData factData nCyc nTotal
    = Some i
    /\ ~ falls_through (_hardness i) (_hType i)
    /\ shock_in_range (_supplyShockType i) (_loadShockType i)
    /\ (forall e,
          construct psiToPa mToInch float_pow np_tan i true = Raise e ->
          ~ pow_raises float_pow e ->
          e = ZeroDivisionError
          \/ (e = TypeError /\ isFlexible factData = "Yes"
              /\ (nTotal <? 1e10) = false)).
Proof.
  intros Hh Hp Hl Ht. unfold calculateDudley_inputs.
  destruct (list_index_In _ _ Hh) as (k & -> & Hk).
  apply lookup_lt_Some in Hk. simpl in Hk. cbn [mbind option_bind].
  assert (exists hType hardness,
            DMSEntryPanel.hardnessReference !! k = Some (hType, hardness)
            /\ (hType = "Brinell" \/ hType = "Rockwell C")
            /\ ~ falls_through hardness hType)
    as (hType & hardness & -> & Hrec & Hft).
  { do 7 (destruct k as [|k];
          [do 2 eexists; split; [reflexivity|];
           split; [auto|];
           intros [[H1 H2]|[H1 H2]];
           first [discriminate H1|vm_compute in H2; discriminate H2]|]).
    lia. }
  destruct (list_index_In _ _ Hp) as (s & -> & Hs).
  destruct (list_index_In _ _ Hl) as (l & -> & Hl').
  apply lookup_lt_Some in Hs, Hl'. simpl in Hs, Hl'.
  cbn [mbind option_bind fst snd].
  eexists. split; [reflexivity|]. cbn [_hardness _hType _supplyShockType
    _loadShockType].
  split; [exact Hft|]. split; [unfold shock_in_range; lia|].
  intros e He Hn. apply construct_Raise_inv in He.
  rewrite outcome_nf in He.
  match type of He with
  | snd (calculate_nf _ _ _ _ ?i) = _ =>
      destruct (run_facts psiToPa mToInch float_pow np_tan i) as (H1 & _);
      destruct (unrecognised_facts psiToPa mToInch float_pow np_tan i)
        as (H2 & H3)
  end.
  destruct (H1 e He) as (Hcls & Hte & Hie).
  cbn [_hardness _hType _supplyShockType _loadShockType _flexible _nTotal
       _toothEnd] in *.
  destruct Hcls as [Hcls|Hcls]; [|contradiction].
  simpl in Hcls.
  destruct Hcls as [<-|[<-|[<-|[<-|[<-|[]]]]]].
  - now left.
  - right. destruct (Hte eq_refl Hn) as [Hbad|[Hflex Hw]]; [contradiction|].
    split; [reflexivity|]. split; [|exact Hw].
    now apply String.eqb_eq.
  - exfalso. apply (Hie eq_refl Hn). unfold shock_in_range. lia.
  - exfalso. destruct (H2 He Hn) as [Hb Hr]. destruct Hrec; contradiction.
  - exfalso. destruct (H3 He Hn) as [Hst Hcr]. simpl in Ht.
    destruct Ht as [Ht|[Ht|[]]]; symmetry in Ht; contradiction.
Qed.

Lemma X18_witness :
  exists i,
    calculateDudley_inputs Sample.np_tan sample_geomData sample_torqData
      sample_factData 9999 9999999999 = Some i
    /\ ~ falls_through (_hardness i) (_hType i)
    /\ shock_in_range (_supplyShockType i) (_loadShockType i).
Proof.
  destruct (X18_panel_selections_decode_safely Sample.psiToPa Sample.mToInch
              Sample.float_pow Sample.np_tan Sample.np_tan
              sample_geomData sample_torqData sample_factData
              9999 9999999999)
    as (i & Hi & Hft & Hs & _); simpl; auto 10.
  exists i. auto.
Defined.

(* ===================================================================== *)
(** ** Unrecognised hardness type and tooth end (C7) *)
(* ===================================================================== *)


Section PartialRuns.

Variable psiToPa : float -> float.
Variable mToInch : float -> float.
Variable float_pow : float -> float -> result float.
Variable np_tan : float -> float.

Local Abbreviation calc := (calculate psiToPa mToInch float_pow np_tan).
Local Abbreviation nf := (calculate_nf psiToPa mToInch float_pow np_tan).




End PartialRuns.



